(** * Message-processing pipeline of the WhatsApp chatbot

    Shallow embedding of the webhook server (schema set-up, persistence
    gateway, outbound channel, generation gateway, dialog engine, pipeline
    orchestrator, webhook routes) and of the webhook routes of the
    stand-alone simple server, with the properties of the pipeline stated
    and proved over the embedding.

    Conventions.
    - Text is a [string]; [toLowerCase] folds the letters A-Z, which is all
      that the keyword tests of the dialog engine can observe.
    - Timestamps ([Date.now()], [CURRENT_TIMESTAMP]) are milliseconds in [Z].
    - JS objects used as dictionaries (the session payload) are
      [gmap string string]; an absent or [null] field is [None].
    - Everything the process cannot decide by itself (clock readings, whether
      a request to the platform, to a generation service or to the store
      goes through) is read from an [oracle], one per orchestrator run.
    - Effects are explicit: a computation maps a [world] to a new [world]
      and either a value or the exception it raised. *)

From stdpp Require Import base strings gmap list pretty sorting.
From Stdlib Require Import ZArith Lia Ascii.

Local Open Scope string_scope.
Local Open Scope list_scope.
Local Open Scope Z_scope.

(** ** JavaScript string helpers *)

Module Js.

(** [c.toLowerCase()] on one code unit. *)
Definition lower_ascii (c : ascii) : ascii :=
  let n := nat_of_ascii c in
  if ((65 <=? n) && (n <=? 90))%nat then ascii_of_nat (n + 32) else c.

(** [s.toLowerCase()]. *)
Fixpoint toLowerCase (s : string) : string :=
  match s with
  | EmptyString => EmptyString
  | String c s' => String (lower_ascii c) (toLowerCase s')
  end.

(** [hay.startsWith(needle)]. *)
Fixpoint startsWith (needle hay : string) : bool :=
  match needle, hay with
  | EmptyString, _ => true
  | String _ _, EmptyString => false
  | String a n', String b h' => if Ascii.eqb a b then startsWith n' h' else false
  end.

(** [hay.includes(needle)]. *)
Fixpoint includes (needle hay : string) : bool :=
  startsWith needle hay ||
  match hay with
  | EmptyString => false
  | String _ h' => includes needle h'
  end.

(** Truthiness of a string-valued expression that may be [undefined]. *)
Definition truthy (v : option string) : bool :=
  match v with
  | Some s => negb (String.eqb s "")
  | None => false
  end.

(** [a || b] on string-valued expressions that may be [undefined]. *)
Definition or_else (a b : option string) : option string :=
  if truthy a then a else b.

End Js.

(** ** Schema created by [initializeDatabase] *)

Module Schema.

Record column := Column {
  col_name : string;
  col_type : string;
  col_primary_key : bool;
  col_unique : bool;
  col_not_null : bool
}.

Record table := Table {
  tbl_name : string;
  tbl_columns : list column
}.

Record index := Index {
  idx_name : string;
  idx_table : string;
  idx_column : string;
  idx_unique : bool
}.

Definition conversations : table :=
  Table "conversations"
    [ Column "id" "UUID" true false false;
      Column "phone_number" "VARCHAR(20)" false false true;
      Column "user_name" "VARCHAR(100)" false false false;
      Column "created_at" "TIMESTAMP" false false false;
      Column "updated_at" "TIMESTAMP" false false false;
      Column "metadata" "JSONB" false false false ].

Definition messages : table :=
  Table "messages"
    [ Column "id" "UUID" true false false;
      Column "conversation_id" "UUID" false false false;
      Column "message_id" "VARCHAR(100)" false true false;
      Column "phone_number" "VARCHAR(20)" false false true;
      Column "message_type" "VARCHAR(20)" false false true;
      Column "content" "TEXT" false false false;
      Column "media_url" "VARCHAR(500)" false false false;
      Column "media_type" "VARCHAR(50)" false false false;
      Column "direction" "VARCHAR(10)" false false true;
      Column "timestamp" "TIMESTAMP" false false false;
      Column "status" "VARCHAR(20)" false false false;
      Column "metadata" "JSONB" false false false ].

Definition bot_sessions : table :=
  Table "bot_sessions"
    [ Column "id" "UUID" true false false;
      Column "phone_number" "VARCHAR(20)" false false true;
      Column "session_data" "JSONB" false false false;
      Column "current_step" "VARCHAR(100)" false false false;
      Column "expires_at" "TIMESTAMP" false false false;
      Column "created_at" "TIMESTAMP" false false false;
      Column "updated_at" "TIMESTAMP" false false false ].

(** The four [CREATE INDEX] statements; none of them is [UNIQUE]. *)
Definition indexes : list index :=
  [ Index "idx_conversations_phone" "conversations" "phone_number" false;
    Index "idx_messages_conversation" "messages" "conversation_id" false;
    Index "idx_messages_phone" "messages" "phone_number" false;
    Index "idx_sessions_phone" "bot_sessions" "phone_number" false ].

(** A column can arbitrate [ON CONFLICT (c)] only when a unique index covers
    it: a [PRIMARY KEY] or [UNIQUE] column, or a [CREATE UNIQUE INDEX]. *)
Definition has_unique_index (ixs : list index) (t : table) (c : string) : bool :=
  existsb (fun col => String.eqb (col_name col) c
                      && (col_primary_key col || col_unique col))
          (tbl_columns t)
  || existsb (fun ix => String.eqb (idx_table ix) (tbl_name t)
                        && String.eqb (idx_column ix) c
                        && idx_unique ix)
             ixs.

End Schema.

(** ** Data model *)

(** Session payload: the JS object kept in [session_data]. *)
Abbreviation payload := (gmap string string).

(** Row of [conversations]; [metadata] is never written and stays [NULL]. *)
Record conversation := Conversation {
  conv_id : Z;
  conv_phone_number : string;
  conv_user_name : option string;
  conv_created_at : Z;
  conv_updated_at : Z
}.

(** Row of [messages], without its generated [id], which nothing reads. *)
Record message := Message {
  msg_conversation_id : Z;
  msg_message_id : option string;
  msg_phone_number : string;
  msg_message_type : string;
  msg_content : option string;
  msg_media_url : option string;
  msg_media_type : option string;
  msg_direction : string;
  msg_timestamp : Z;
  msg_status : string;
  msg_metadata : string
}.

(** A session as the orchestrator holds it: a row of [bot_sessions] (whose
    [id], [created_at] and [updated_at] nothing reads) or the object built
    when no live row exists. *)
Record session := Session {
  phone_number : string;
  session_data : option payload;
  current_step : option string;
  expires_at : option Z
}.

(** Requests accepted by the platform's send endpoint. *)
Inductive outbound_request :=
  | TextRequest (to : string) (body : option string)
  | MediaRequest (to : string) (mediaType : string) (link : option string)
                 (caption : option string)
  | InteractiveRequest (to : string) (header body : string)
                       (buttons : list (string * string)).

(** Structured result of a generation service. *)
Record api_result := ApiResult {
  imageUrl : option string;
  videoUrl : option string;
  response : option string
}.

(** What [axios.post] to a generation service does: it rejects (timeout,
    network failure, status outside 2xx) or resolves with [response.data],
    an object or [null]. *)
Inductive axios_outcome :=
  | AxiosError
  | AxiosData (data : option api_result).

Record world := World {
  conversations : list conversation;
  messages : list message;
  bot_sessions : list session;
  outbox : list outbound_request;
  api_calls : list (string * payload)
}.

(** Exceptions. *)
Inductive exn :=
  | StoreError (operation : string) (detail : string)
  | DeliveryError (operation : string)
  | TypeError (detail : string).

(** Environment of one [pool.query]: whether the store fails to run the
    statement (connection lost, value rejected by a column type or by the
    foreign key) and the value of [CURRENT_TIMESTAMP]. *)
Record query_env := QueryEnv {
  q_fail : bool;
  q_now : Z
}.

(** Environment of one run of the orchestrator. *)
Record oracle := Oracle {
  q_select_conversation : query_env;
  q_insert_conversation : query_env;
  q_save_inbound : query_env;
  q_get_session : query_env;
  q_save_outbound : query_env;
  q_save_session : query_env;
  now_default_session : Z;
  now_outbound_id : Z;
  now_session_expiry : Z;
  generation : axios_outcome;
  reply_delivered : bool;
  apology_delivered : bool
}.

(** ** Effects: state and exceptions *)

Inductive outcome (A : Type) :=
  | Returned (a : A)
  | Raised (e : exn).
Arguments Returned {A} a.
Arguments Raised {A} e.

Definition M (A : Type) : Type := world -> world * outcome A.

Definition ret {A} (a : A) : M A := fun w => (w, Returned a).

Definition raise {A} (e : exn) : M A := fun w => (w, Raised e).

Definition bind {A B} (m : M A) (k : A -> M B) : M B :=
  fun w =>
    match m w with
    | (w', Returned a) => k a w'
    | (w', Raised e) => (w', Raised e)
    end.

(** [try { m } catch (error) { h error }]. *)
Definition try_catch {A} (m : M A) (h : exn -> M A) : M A :=
  fun w =>
    match m w with
    | (w', Returned a) => (w', Returned a)
    | (w', Raised e) => h e w'
    end.

Definition modify (f : world -> world) : M unit := fun w => (f w, Returned tt).

Definition gets {A} (f : world -> A) : M A := fun w => (w, Returned (f w)).

Notation "x <- m ;; k" := (bind m (fun x => k))
  (at level 100, m at next level, right associativity).
Notation "m ;;; k" := (bind m (fun _ => k))
  (at level 100, right associativity).

Definition raises {A} (r : world * outcome A) : Prop :=
  exists e, r.2 = Raised e.

Definition returns {A} (r : world * outcome A) : Prop :=
  exists a, r.2 = Returned a.

(** ** Persistence gateway: [DatabaseService] *)

(** [pool.query] reaching the store: it rejects when the store fails. Each
    method of [DatabaseService] logs the error and throws it again, which
    leaves the exception as it is. *)
Definition query (q : query_env) (operation : string) : M unit :=
  if q_fail q then raise (StoreError operation "query failed") else ret tt.

(** [ON CONFLICT (c)] is accepted only with a unique index on [c]. *)
Definition conflict_target (ixs : list Schema.index) (t : Schema.table)
    (c operation : string) : M unit :=
  if Schema.has_unique_index ixs t c then ret tt
  else raise (StoreError operation
    "there is no unique or exclusion constraint matching the ON CONFLICT specification").

(** [gen_random_uuid()]: an identifier no row of the table has. *)
Definition fresh_id (rows : list conversation) : Z :=
  1 + foldr (fun c acc => Z.max (conv_id c) acc) 0 rows.

(** [SELECT * FROM conversations WHERE phone_number = $1
     ORDER BY created_at DESC LIMIT 1]. *)
Definition latest_conversation (phoneNumber : string) (rows : list conversation)
    : option conversation :=
  foldr (fun c best =>
           if String.eqb (conv_phone_number c) phoneNumber then
             match best with
             | Some b => if conv_created_at b <? conv_created_at c
                         then Some c else Some b
             | None => Some c
             end
           else best)
        None rows.

Definition set_conversations (f : list conversation -> list conversation)
    (w : world) : world :=
  World (f (conversations w)) (messages w) (bot_sessions w) (outbox w) (api_calls w).

Definition set_messages (f : list message -> list message) (w : world) : world :=
  World (conversations w) (f (messages w)) (bot_sessions w) (outbox w) (api_calls w).

Definition set_bot_sessions (f : list session -> list session) (w : world) : world :=
  World (conversations w) (messages w) (f (bot_sessions w)) (outbox w) (api_calls w).

Definition set_outbox (f : list outbound_request -> list outbound_request)
    (w : world) : world :=
  World (conversations w) (messages w) (bot_sessions w) (f (outbox w)) (api_calls w).

Definition set_api_calls (f : list (string * payload) -> list (string * payload))
    (w : world) : world :=
  World (conversations w) (messages w) (bot_sessions w) (outbox w) (f (api_calls w)).

Definition getOrCreateConversation (q_select q_insert : query_env)
    (phoneNumber : string) (userName : option string) : M conversation :=
  query q_select "getOrCreateConversation" ;;;
  found <- gets (fun w => latest_conversation phoneNumber (conversations w)) ;;
  match found with
  | Some c => ret c
  | None =>
      query q_insert "getOrCreateConversation" ;;;
      id <- gets (fun w => fresh_id (conversations w)) ;;
      let c := Conversation id phoneNumber userName (q_now q_insert) (q_now q_insert) in
      modify (set_conversations (fun rows => rows ++ [c])) ;;;
      ret c
  end.

(** Does a row carry this platform message id? A [NULL] id conflicts with
    nothing. *)
Definition has_message_id (messageId : option string) (m : message) : bool :=
  match messageId, msg_message_id m with
  | Some a, Some b => String.eqb a b
  | _, _ => false
  end.

(** The row that the [INSERT] of [saveMessage] makes of its values:
    [timestamp] and [status] take their defaults, [metadata] is
    [JSON.stringify({})]. *)
Definition new_row (q : query_env) (conversationId : Z)
    (messageId : option string) (phoneNumber messageType : string)
    (content mediaUrl mediaType : option string) (direction : string) : message :=
  Message conversationId messageId phoneNumber messageType content mediaUrl
          mediaType direction (q_now q) "sent" "{}".

(** [INSERT INTO messages ... ON CONFLICT (message_id) DO NOTHING
     RETURNING *], then [result.rows[0]]. *)
Definition saveMessage (q : query_env) (conversationId : Z)
    (messageId : option string) (phoneNumber messageType : string)
    (content mediaUrl mediaType : option string) (direction : string)
    : M (option message) :=
  query q "saveMessage" ;;;
  conflict_target Schema.indexes Schema.messages "message_id" "saveMessage" ;;;
  rows <- gets messages ;;
  if existsb (has_message_id messageId) rows then ret None
  else
    let m := new_row q conversationId messageId phoneNumber messageType content
                     mediaUrl mediaType direction in
    modify (set_messages (fun rows => rows ++ [m])) ;;;
    ret (Some m).

(** [INSERT INTO bot_sessions ... ON CONFLICT (phone_number) DO UPDATE SET
     session_data = $2, current_step = $3, expires_at = $4, ...], run
    against a catalog with the indexes [ixs]. *)
Definition saveSession_on (ixs : list Schema.index) (q : query_env)
    (phoneNumber : string) (sessionData : payload)
    (currentStep : option string) (expiresAt : Z) : M unit :=
  query q "saveSession" ;;;
  conflict_target ixs Schema.bot_sessions "phone_number" "saveSession" ;;;
  rows <- gets bot_sessions ;;
  let s := Session phoneNumber (Some sessionData) currentStep (Some expiresAt) in
  if existsb (fun r => String.eqb (phone_number r) phoneNumber) rows then
    modify (set_bot_sessions
              (map (fun r => if String.eqb (phone_number r) phoneNumber
                             then s else r)))
  else modify (set_bot_sessions (fun rows => rows ++ [s])).

(** [saveSession] on the catalog that [initializeDatabase] creates. *)
Definition saveSession : query_env -> string -> payload -> option string -> Z -> M unit :=
  saveSession_on Schema.indexes.

(** [expires_at > CURRENT_TIMESTAMP]; a [NULL] expiry satisfies no comparison. *)
Definition live (now : Z) (s : session) : bool :=
  match expires_at s with
  | Some e => now <? e
  | None => false
  end.

(** [SELECT * FROM bot_sessions WHERE phone_number = $1 AND
     expires_at > CURRENT_TIMESTAMP], then [result.rows[0]]. *)
Definition getSession (q : query_env) (phoneNumber : string) : M (option session) :=
  query q "getSession" ;;;
  rows <- gets bot_sessions ;;
  ret (head (filter (fun s => String.eqb (phone_number s) phoneNumber && live (q_now q) s)
                    rows)).

(** ** Outbound channel: [WhatsAppService] *)

(** The request to the platform's send endpoint: recorded in the outbox when
    the platform accepts it, an exception (logged and thrown again) when not. *)
Definition post_to_platform (delivered : bool) (operation : string)
    (r : outbound_request) : M unit :=
  if delivered then modify (set_outbox (fun sent => sent ++ [r]))
  else raise (DeliveryError operation).

Definition sendMessage (delivered : bool) (phoneNumber : string)
    (message : option string) : M unit :=
  post_to_platform delivered "sendMessage" (TextRequest phoneNumber message).

Definition sendMedia (delivered : bool) (phoneNumber : string)
    (mediaUrl : option string) (mediaType : string) (caption : option string)
    : M unit :=
  post_to_platform delivered "sendMedia"
    (MediaRequest phoneNumber mediaType mediaUrl
       (if Js.truthy caption then caption else None)).

Definition sendInteractiveMessage (delivered : bool) (phoneNumber header body : string)
    (buttons : list string) : M unit :=
  post_to_platform delivered "sendInteractiveMessage"
    (InteractiveRequest phoneNumber header body
       (imap (fun index btn => ("btn_" +:+ pretty index, btn)) buttons)).

(** ** Generation gateway and dialog engine: [BotHandler] *)

(** The double quote character, for the texts that contain one. *)
Definition dquote : string := String (ascii_of_nat 34) EmptyString.

(** The object returned by the [catch] of [callCustomAPI]. *)
Definition fallback : api_result :=
  ApiResult
    (Some "https://via.placeholder.com/400x400?text=Error+Generating+Image")
    (Some "https://sample-videos.com/zip/10/mp4/SampleVideo_1280x720_1mb.mp4")
    (Some "Sorry, I could not process your request right now. Please try again later.").

(** [axios.post(apiEndpoints[service], data, { timeout: 30000 })]. *)
Definition axios_post (ax : axios_outcome) (service : string) (data : payload)
    : M (option api_result) :=
  modify (set_api_calls (fun calls => calls ++ [(service, data)])) ;;;
  match ax with
  | AxiosError => raise (DeliveryError "callCustomAPI")
  | AxiosData d => ret d
  end.

Definition callCustomAPI (ax : axios_outcome) (service : string) (data : payload)
    : M (option api_result) :=
  try_catch (axios_post ax service data) (fun error => ret (Some fallback)).

(** Reading a property of the value [callCustomAPI] returned: a [TypeError]
    on [null]. *)
Definition property {A} (name : string) (get : api_result -> A)
    (v : option api_result) : M A :=
  match v with
  | Some r => ret (get r)
  | None => raise (TypeError ("Cannot read properties of null (reading '" +:+ name +:+ "')"))
  end.

(** The response object of [handleStep]: its [type] with the fields that
    type carries, the next step and the next payload. *)
Inductive response_kind :=
  | text (content : option string)
  | media (url : option string) (mediaType caption : string)
  | interactive (header body : string) (buttons : list string).

Record step_response := StepResponse {
  kind : response_kind;
  nextStep : string;
  sessionData : payload
}.

Definition welcome_header : string := "Welcome! 👋".
Definition welcome_body : string := "What would you like to do today?".
Definition menu_buttons : list string :=
  ["Generate Image"; "Generate Video"; "Get Information"].

Definition image_prompt : string :=
  "Great! Please describe the image you want me to generate.".
Definition video_prompt : string :=
  "Awesome! Please describe the video you want me to create.".
Definition info_prompt : string :=
  "What information would you like me to help you find?".
Definition invalid_option : string :=
  "Please select one of the options: Generate Image, Generate Video, or Get Information.".
Definition greeting : string :=
  "Hi! Type " +:+ dquote +:+ "start" +:+ dquote +:+ " to begin or "
  +:+ dquote +:+ "menu" +:+ dquote +:+ " to see options.".

Definition image_caption (messageText : string) : string :=
  "Here's your generated image based on: " +:+ dquote +:+ messageText +:+ dquote.
Definition video_caption (messageText : string) : string :=
  "Here's your generated video: " +:+ dquote +:+ messageText +:+ dquote.

(** The [menu_selection] case of [handleStep]. *)
Definition menu_selection (sessionData : payload) (messageText : string)
    : step_response :=
  if Js.includes "Generate Image" messageText
     || Js.includes "image" (Js.toLowerCase messageText) then
    StepResponse (text (Some image_prompt)) "image_input"
                 (<["service" := "image"]> sessionData)
  else if Js.includes "Generate Video" messageText
          || Js.includes "video" (Js.toLowerCase messageText) then
    StepResponse (text (Some video_prompt)) "video_input"
                 (<["service" := "video"]> sessionData)
  else if Js.includes "Get Information" messageText
          || Js.includes "information" (Js.toLowerCase messageText) then
    StepResponse (text (Some info_prompt)) "info_input"
                 (<["service" := "info"]> sessionData)
  else StepResponse (text (Some invalid_option)) "menu_selection" sessionData.

Definition handleStep (ax : axios_outcome) (session : session)
    (messageText : string) (conversation : conversation) : M step_response :=
  let sessionData := default ∅ (session_data session) in
  if bool_decide (current_step session = Some "welcome") then
    ret (StepResponse (interactive welcome_header welcome_body menu_buttons)
                      "menu_selection" sessionData)
  else if bool_decide (current_step session = Some "menu_selection") then
    ret (menu_selection sessionData messageText)
  else if bool_decide (current_step session = Some "image_input") then
    imageResult <- callCustomAPI ax "image"
      {[ "prompt" := messageText; "user" := conv_phone_number conversation ]} ;;
    url <- property "imageUrl" imageUrl imageResult ;;
    ret (StepResponse (media url "image" (image_caption messageText)) "welcome" ∅)
  else if bool_decide (current_step session = Some "video_input") then
    videoResult <- callCustomAPI ax "video"
      {[ "prompt" := messageText; "user" := conv_phone_number conversation ]} ;;
    url <- property "videoUrl" videoUrl videoResult ;;
    ret (StepResponse (media url "video" (video_caption messageText)) "welcome" ∅)
  else if bool_decide (current_step session = Some "info_input") then
    infoResult <- callCustomAPI ax "info"
      {[ "query" := messageText; "user" := conv_phone_number conversation ]} ;;
    content <- property "response" response infoResult ;;
    ret (StepResponse (text content) "welcome" ∅)
  else
    ret (StepResponse (text (Some greeting)) "welcome" ∅).

(** ** Pipeline orchestrator: [BotHandler.processMessage] *)

Definition thirty_minutes : Z := 30 * 60 * 1000.

Definition apology : string := "Sorry, I encountered an error. Please try again.".

(** The session built when [getSession] finds no live row. *)
Definition freshSession (phoneNumber : string) (now : Z) : session :=
  Session phoneNumber (Some ∅) (Some "welcome") (Some (now + thirty_minutes)).

(** [response.type]. *)
Definition type_of (k : response_kind) : string :=
  match k with
  | text _ => "text"
  | media _ _ _ => "media"
  | interactive _ _ _ => "interactive"
  end.

(** [response.content || response.body]. *)
Definition content_or_body (k : response_kind) : option string :=
  match k with
  | text content => Js.or_else content None
  | media _ _ _ => None
  | interactive _ body _ => Js.or_else None (Some body)
  end.

(** [response.url] and [response.mediaType]. *)
Definition url_of (k : response_kind) : option string :=
  match k with media url _ _ => url | _ => None end.
Definition mediaType_of (k : response_kind) : option string :=
  match k with media _ mediaType _ => Some mediaType | _ => None end.

(** The three-way [if] on [response.type] that sends the response. *)
Definition dispatch (delivered : bool) (phoneNumber : string) (k : response_kind)
    : M unit :=
  match k with
  | text content => sendMessage delivered phoneNumber content
  | media url mediaType caption =>
      sendMedia delivered phoneNumber url mediaType (Some caption)
  | interactive header body buttons =>
      sendInteractiveMessage delivered phoneNumber header body buttons
  end.

(** The id given to an outbound message: [`out_${Date.now()}`]. *)
Definition outbound_id (now : Z) : string := "out_" +:+ pretty now.

(** The steps of the [try] of [processMessage] that follow the choice of the
    session: the dialog step, the send, the record of the outbound message
    and the update of the session. Every response of [handleStep] carries a
    [sessionData] object, so [response.sessionData || session.session_data]
    is [response.sessionData]. *)
Definition respond (o : oracle) (phoneNumber messageText : string)
    (conversation : conversation) (session : session) : M unit :=
  response <- handleStep (generation o) session messageText conversation ;;
  dispatch (reply_delivered o) phoneNumber (kind response) ;;;
  saveMessage (q_save_outbound o) (conv_id conversation)
              (Some (outbound_id (now_outbound_id o))) phoneNumber
              (type_of (kind response)) (content_or_body (kind response))
              (url_of (kind response)) (mediaType_of (kind response)) "outbound" ;;;
  saveSession (q_save_session o) phoneNumber (sessionData response)
              (Js.or_else (Some (nextStep response)) (current_step session))
              (now_session_expiry o + thirty_minutes).

(** The body of the [try] of [processMessage]. *)
Definition processMessage_try (o : oracle) (phoneNumber messageText : string)
    (messageId userName : option string) : M unit :=
  conversation <- getOrCreateConversation (q_select_conversation o)
                    (q_insert_conversation o) phoneNumber userName ;;
  saveMessage (q_save_inbound o) (conv_id conversation) messageId phoneNumber
              "text" (Some messageText) None None "inbound" ;;;
  found <- getSession (q_get_session o) phoneNumber ;;
  let session := match found with
                 | Some s => s
                 | None => freshSession phoneNumber (now_default_session o)
                 end in
  respond o phoneNumber messageText conversation session.

Definition processMessage (o : oracle) (phoneNumber messageText : string)
    (messageId userName : option string) : M unit :=
  try_catch (processMessage_try o phoneNumber messageText messageId userName)
            (fun error => sendMessage (apology_delivered o) phoneNumber (Some apology)).

(** ** Webhook routes of the server *)

Record http_response := HttpResponse {
  status : Z;
  body : option string
}.

(** [req.query] of a verification request. *)
Record verify_query := VerifyQuery {
  hub_mode : option string;
  hub_verify_token : option string;
  hub_challenge : option string
}.

(** [app.get('/webhook')]; [WEBHOOK_VERIFY_TOKEN] is read from the
    environment and is [undefined] when unset. *)
Definition get_webhook (WEBHOOK_VERIFY_TOKEN : option string) (query : verify_query)
    : http_response :=
  if bool_decide (hub_mode query = Some "subscribe")
     && bool_decide (hub_verify_token query = WEBHOOK_VERIFY_TOKEN)
  then HttpResponse 200 (hub_challenge query)
  else HttpResponse 403 (Some "Forbidden").

(** The fields of a delivery that the handler reads. *)
Record wa_message := WaMessage {
  from : string;
  id : option string;
  text_body : option string          (* message.text?.body *)
}.

Record change_value := ChangeValue {
  value_messages : option (list wa_message);
  contact_name : option string       (* contacts?.[0]?.profile?.name *)
}.

Record change := Change {
  field : option string;
  value : option change_value
}.

Record entry := Entry {
  changes : option (list change)
}.

Record delivery := Delivery {
  object : option string;
  entries : option (list entry)
}.

(** One call [BotHandler.processMessage(phoneNumber, messageText, messageId,
    userName)]. *)
Record invocation := Invocation {
  inv_phoneNumber : string;
  inv_messageText : string;
  inv_messageId : option string;
  inv_userName : option string
}.

(** The callback of [messages.forEach]: the calls of the orchestrator it
    makes for one message. *)
Definition message_invocations (v : change_value) (m : wa_message) : list invocation :=
  if Js.truthy (text_body m)
  then [Invocation (from m) (default "" (text_body m)) (id m) (contact_name v)]
  else [].

(** The callback of [entry.changes?.forEach]; reading [messages] of an absent
    [change.value] is a [TypeError]. *)
Definition change_invocations (c : change) : list invocation + exn :=
  if bool_decide (field c = Some "messages") then
    match value c with
    | None => inr (TypeError "Cannot read properties of undefined (reading 'messages')")
    | Some v =>
        match value_messages v with
        | Some ms => inl (flat_map (message_invocations v) ms)
        | None => inl []
        end
    end
  else inl [].

(** A [forEach] whose callback may throw: the calls made until then stay
    made, the exception leaves the loop. *)
Fixpoint forEach {A} (f : A -> list invocation + exn) (l : list A)
    : list invocation * option exn :=
  match l with
  | [] => ([], None)
  | x :: l' =>
      match f x with
      | inl made => let (rest, e) := forEach f l' in (made ++ rest, e)
      | inr e => ([], Some e)
      end
  end.

Definition entry_invocations (e : entry) : list invocation * option exn :=
  match changes e with
  | Some cs => forEach change_invocations cs
  | None => ([], None)
  end.

(** [body.entry?.forEach(...)]: an exception inside an entry leaves this
    loop too. *)
Fixpoint entries_invocations (es : list entry) : list invocation * option exn :=
  match es with
  | [] => ([], None)
  | e :: es' =>
      match entry_invocations e with
      | (made, None) => let (rest, err) := entries_invocations es' in (made ++ rest, err)
      | (made, Some err) => (made, Some err)
      end
  end.

(** [app.post('/webhook')]: the calls of the orchestrator it starts, in
    order, and its HTTP response. *)
Definition post_webhook (d : delivery) : list invocation * http_response :=
  if bool_decide (object d = Some "whatsapp_business_account") then
    match entries d with
    | Some es =>
        match entries_invocations es with
        | (made, None) => (made, HttpResponse 200 (Some "OK"))
        | (made, Some _) => (made, HttpResponse 500 (Some "Internal Server Error"))
        end
    | None => ([], HttpResponse 200 (Some "OK"))
    end
  else ([], HttpResponse 200 (Some "OK")).

(** The started calls are asynchronous. [run_invocations] is the schedule in
    which they run to completion one after the other, each in its own
    environment. *)
Definition run_invocation (o : oracle) (i : invocation) (w : world) : world :=
  (processMessage o (inv_phoneNumber i) (inv_messageText i) (inv_messageId i)
                  (inv_userName i) w).1.

Fixpoint run_invocations (os : list oracle) (calls : list invocation) (w : world)
    {struct calls} : world :=
  match calls, os with
  | i :: calls', o :: os' => run_invocations os' calls' (run_invocation o i w)
  | _, _ => w
  end.

(** Every message object nested in a change, an entry, a delivery. *)
Definition change_messages (c : change) : list wa_message :=
  match value c with
  | Some v => default [] (value_messages v)
  | None => []
  end.

Definition entry_messages (e : entry) : list wa_message :=
  flat_map change_messages (default [] (changes e)).

Definition delivery_messages (d : delivery) : list wa_message :=
  flat_map entry_messages (default [] (entries d)).

(** ** Webhook verification of the stand-alone simple server *)

Module Simple.

(** [app.get('/webhook')] of the simple server: [None] when the handler
    returns without sending a response. The verify token defaults to a
    fixed string when the environment gives none (or an empty one). *)
Definition get_webhook (WEBHOOK_VERIFY_TOKEN : option string) (query : verify_query)
    : option http_response :=
  let verifyToken := Js.or_else WEBHOOK_VERIFY_TOKEN (Some "your_verify_token_here") in
  if Js.truthy (hub_mode query) && Js.truthy (hub_verify_token query) then
    if bool_decide (hub_mode query = Some "subscribe")
       && bool_decide (hub_verify_token query = verifyToken)
    then Some (HttpResponse 200 (hub_challenge query))
    else Some (HttpResponse 403 (Some "Forbidden"))
  else None.

(** [app.post('/webhook')] of the simple server: the messages it hands to
    [processMessage], in order, and its response, or the [TypeError] that
    leaves the handler. It looks at the first change of the first entry and
    at nothing else. *)
Definition post_webhook (d : delivery)
    : list wa_message * (http_response + exn) :=
  if Js.truthy (object d) then
    match entries d with
    | None => ([], inl (HttpResponse 200 (Some "EVENT_RECEIVED")))
    | Some es =>
        match head es with
        | None => ([], inr (TypeError "Cannot read properties of undefined (reading 'changes')"))
        | Some e =>
            match changes e with
            | None => ([], inl (HttpResponse 200 (Some "EVENT_RECEIVED")))
            | Some cs =>
                match head cs with
                | None => ([], inr (TypeError "Cannot read properties of undefined (reading 'value')"))
                | Some c =>
                    match value c with
                    | None => ([], inr (TypeError "Cannot read properties of undefined (reading 'messages')"))
                    | Some v =>
                        match value_messages v with
                        | Some ms => (ms, inl (HttpResponse 200 (Some "EVENT_RECEIVED")))
                        | None => ([], inl (HttpResponse 200 (Some "EVENT_RECEIVED")))
                        end
                    end
                end
            end
        end
    end
  else ([], inl (HttpResponse 404 (Some "Not Found"))).

Definition newline : string := String (ascii_of_nat 10) EmptyString.

Definition hello_response : string := "Hello! 👋 How can I help you today?".
Definition help_response : string :=
  "I'm a simple chatbot! You can:" +:+ newline +:+ "• Say hello" +:+ newline
  +:+ "• Ask for help" +:+ newline +:+ "• Tell me about yourself" +:+ newline
  +:+ "• Say goodbye".
Definition goodbye_response : string := "Goodbye! Have a great day! 👋".
Definition how_are_you_response : string :=
  "I'm doing great! Thanks for asking. How are you?".
Definition thanks_response : string := "You're welcome! Happy to help! 😊".
Definition echo_response (userMessage : string) : string :=
  "I received your message: " +:+ dquote +:+ userMessage +:+ dquote +:+ newline
  +:+ newline +:+ "I'm a simple bot right now. Try saying " +:+ dquote +:+ "help"
  +:+ dquote +:+ " to see what I can do!".

Definition generateResponse (userMessage : string) : string :=
  let message := Js.toLowerCase userMessage in
  if Js.includes "hello" message || Js.includes "hi" message then hello_response
  else if Js.includes "help" message then help_response
  else if Js.includes "bye" message || Js.includes "goodbye" message
       then goodbye_response
  else if Js.includes "how are you" message then how_are_you_response
  else if Js.includes "thank" message then thanks_response
  else echo_response userMessage.

(** What [fetch] to the platform does: it resolves with an ok status (the
    message is accepted), resolves with another status, or rejects. *)
Inductive fetch_outcome := FetchOk | FetchNotOk | FetchError.

(** [sendWhatsAppMessage]: without both credentials it only logs; every
    failure of [fetch] is logged and goes no further. *)
Definition sendWhatsAppMessage (accessToken phoneNumberId : option string)
    (f : fetch_outcome) (phoneNumber message : string) : M unit :=
  if negb (Js.truthy accessToken) || negb (Js.truthy phoneNumberId) then ret tt
  else
    try_catch
      (match f with
       | FetchOk =>
           modify (set_outbox (fun sent => sent ++ [TextRequest phoneNumber (Some message)]))
       | FetchNotOk => ret tt
       | FetchError => raise (DeliveryError "sendWhatsAppMessage")
       end)
      (fun error => ret tt).

(** [processMessage] of the simple server. *)
Definition processMessage (accessToken phoneNumberId : option string)
    (f : fetch_outcome) (message : wa_message) : M unit :=
  if negb (Js.truthy (text_body message)) then ret tt
  else
    sendWhatsAppMessage accessToken phoneNumberId f (from message)
      (generateResponse (default "" (text_body message))).

End Simple.

(** ** Mock generation services *)

Module Mock.

(** The characters [encodeURIComponent] leaves as they are. *)
Definition unreserved (c : ascii) : bool :=
  let n := nat_of_ascii c in
  ((65 <=? n) && (n <=? 90) || (97 <=? n) && (n <=? 122)
   || (48 <=? n) && (n <=? 57))%nat
  || Js.includes (String c EmptyString) "-_.!~*'()".

Definition hex_digit (n : nat) : ascii :=
  if (n <? 10)%nat then ascii_of_nat (48 + n) else ascii_of_nat (55 + n).

(** [encodeURIComponent] on the bytes of the UTF-8 text. *)
Fixpoint encodeURIComponent (s : string) : string :=
  match s with
  | EmptyString => EmptyString
  | String c s' =>
      if unreserved c then String c (encodeURIComponent s')
      else String "%" (String (hex_digit (nat_of_ascii c / 16))
             (String (hex_digit (nat_of_ascii c mod 16)) (encodeURIComponent s')))
  end.

Definition image_url_prefix : string :=
  "https://via.placeholder.com/400x400/0066FF/FFFFFF?text=".

(** [app.post('/api/generate-image')]. *)
Definition generate_image (body : payload) : api_result :=
  ApiResult
    (Some (image_url_prefix
           +:+ encodeURIComponent
                 (default "" (Js.or_else (body !! "prompt") (Some "Generated Image")))))
    None None.

(** [app.post('/api/generate-video')]. *)
Definition generate_video (body : payload) : api_result :=
  ApiResult None
    (Some "https://sample-videos.com/zip/10/mp4/SampleVideo_1280x720_1mb.mp4") None.

(** [app.post('/api/get-info')]; an absent [query] prints as [undefined]. *)
Definition get_info (body : payload) : api_result :=
  ApiResult None None
    (Some ("Here's information about: " +:+ default "undefined" (body !! "query")
           +:+ ". This is a mock response for local testing.")).

(** The mock server as seen through [axios.post]: the three routes answer
    200 with their JSON, any other path is a 404, which axios rejects. *)
Definition post (url : string) (body : payload) : axios_outcome :=
  if String.eqb url "http://localhost:3001/api/generate-image"
  then AxiosData (Some (generate_image body))
  else if String.eqb url "http://localhost:3001/api/generate-video"
  then AxiosData (Some (generate_video body))
  else if String.eqb url "http://localhost:3001/api/get-info"
  then AxiosData (Some (get_info body))
  else AxiosError.

End Mock.

(** [apiEndpoints[service]] of [callCustomAPI] when the environment sets no
    endpoint: the mock server on port 3001; [undefined] for a service that
    is none of the three. *)
Definition apiEndpoints (service : string) : option string :=
  if String.eqb service "image" then Some "http://localhost:3001/api/generate-image"
  else if String.eqb service "video" then Some "http://localhost:3001/api/generate-video"
  else if String.eqb service "info" then Some "http://localhost:3001/api/get-info"
  else None.

(** The outcome of the request of [callCustomAPI] when the mock server is
    the upstream. *)
Definition mock_upstream (service : string) (data : payload) : axios_outcome :=
  match apiEndpoints service with
  | Some url => Mock.post url data
  | None => AxiosError
  end.

(** ** History of a user: [DatabaseService.getConversationHistory] *)

(** [ORDER BY m.timestamp DESC]. *)
Definition newer_first : relation message :=
  fun m1 m2 => msg_timestamp m2 <= msg_timestamp m1.

#[global] Instance newer_first_dec (m1 m2 : message) : Decision (newer_first m1 m2) :=
  Z_le_dec (msg_timestamp m2) (msg_timestamp m1).

(** [messages m JOIN conversations c ON m.conversation_id = c.id WHERE
     c.phone_number = $1]: a message once for every conversation of the user
    that has its [conversation_id]. *)
Definition joined_messages (phoneNumber : string) (convs : list conversation)
    (msgs : list message) : list message :=
  flat_map (fun m =>
    flat_map (fun c =>
      if (conv_id c =? msg_conversation_id m)
         && String.eqb (conv_phone_number c) phoneNumber
      then [m] else []) convs) msgs.

(** [getConversationHistory(phoneNumber, limit)]; the store rejects a
    negative [LIMIT]. Rows of equal timestamp come in an order the store
    does not fix; here the sort keeps them as it finds them. *)
Definition getConversationHistory (q : query_env) (phoneNumber : string)
    (limit : Z) : M (list message) :=
  query q "getConversationHistory" ;;;
  if limit <? 0 then
    raise (StoreError "getConversationHistory" "LIMIT must not be negative")
  else
    convs <- gets conversations ;;
    msgs <- gets messages ;;
    ret (reverse (take (Z.to_nat limit)
                       (merge_sort newer_first
                          (joined_messages phoneNumber convs msgs)))).


(** * Vocabulary of the properties *)

(** [needle] occurs in [hay]. *)
Definition contains (needle hay : string) : Prop :=
  exists pre post, hay = pre +:+ needle +:+ post.

(** [keyword] occurs in [hay] up to the case of the letters. *)
Definition contains_ignoring_case (keyword hay : string) : Prop :=
  exists pre mid post,
    hay = pre +:+ mid +:+ post /\ Js.toLowerCase mid = keyword.

(** The five steps of the dialog. *)
Definition recognized_steps : list string :=
  ["welcome"; "menu_selection"; "image_input"; "video_input"; "info_input"].

(** A step that is absent or none of the five. *)
Definition unrecognized (step : option string) : Prop :=
  forall name, step = Some name -> name ∉ recognized_steps.

(** A response the outbound channel can send as it is: a text has a
    non-empty content, a media message a non-empty link and a media type the
    platform knows, an interactive message at least one button. *)
Definition well_formed (k : response_kind) : Prop :=
  match k with
  | text content => Js.truthy content = true
  | media url mediaType _ =>
      Js.truthy url = true /\ (mediaType = "image" \/ mediaType = "video")
  | interactive _ _ buttons => buttons <> []
  end.

(** The selection made by a text in the menu, in the words of the
    transition table. *)
Definition selects_image (messageText : string) : Prop :=
  contains "Generate Image" messageText \/ contains_ignoring_case "image" messageText.
Definition selects_video (messageText : string) : Prop :=
  contains "Generate Video" messageText \/ contains_ignoring_case "video" messageText.
Definition selects_information (messageText : string) : Prop :=
  contains "Get Information" messageText
  \/ contains_ignoring_case "information" messageText.

(** Number of stored messages with a platform message id. *)
Definition message_count (messageId : string) (rows : list message) : nat :=
  length (filter (has_message_id (Some messageId)) rows).

(** The [UNIQUE] constraint of [messages.message_id]. *)
Definition unique_message_ids (rows : list message) : Prop :=
  forall messageId, (message_count messageId rows <= 1)%nat.

(** No row of [bot_sessions] of the user is live at [now]. *)
Definition no_live_session (now : Z) (phoneNumber : string) (rows : list session)
    : Prop :=
  forall s, s ∈ rows -> phone_number s = phoneNumber ->
  forall e, expires_at s = Some e -> e <= now.

(** Rows of [bot_sessions] of one user. *)
Definition sessions_of (phoneNumber : string) (rows : list session) : list session :=
  filter (fun r => String.eqb (phone_number r) phoneNumber) rows.

(** Concrete environments and states used in the examples. *)
Definition calm_query (now : Z) : query_env := QueryEnv false now.

Definition calm (now : Z) (ax : axios_outcome) : oracle :=
  Oracle (calm_query now) (calm_query now) (calm_query now) (calm_query now)
         (calm_query now) (calm_query now) now now now ax true true.

(** The platform refuses every request. *)
Definition platform_down (now : Z) : oracle :=
  Oracle (calm_query now) (calm_query now) (calm_query now) (calm_query now)
         (calm_query now) (calm_query now) now now now AxiosError false false.

Definition empty_world : world := World [] [] [] [] [].

(** A webhook event stored, then delivered a second time. *)
Definition first_delivery : world * outcome (option message) :=
  saveMessage (calm_query 10) 1 (Some "wamid.A1") "15550001" "text"
              (Some "hi") None None "inbound" empty_world.
Definition second_delivery : world * outcome (option message) :=
  saveMessage (calm_query 20) 1 (Some "wamid.A1") "15550001" "text"
              (Some "hi again") None None "inbound" first_delivery.1.

(** The text body of a message is absent or empty. *)
Definition textless (m : wa_message) : Prop :=
  text_body m = None \/ text_body m = Some "".

(** A call of the orchestrator made for a message of the delivery that has
    a text. *)
Definition made_for (m : wa_message) (i : invocation) : Prop :=
  ~ textless m
  /\ inv_phoneNumber i = from m
  /\ text_body m = Some (inv_messageText i)
  /\ inv_messageId i = id m.

(** A delivery with a message from each of two users, both processed in
    environments whose clocks read the same millisecond. *)
Definition two_user_delivery : delivery :=
  Delivery (Some "whatsapp_business_account")
    (Some [Entry (Some [Change (Some "messages")
      (Some (ChangeValue
         (Some [WaMessage "15550001" (Some "wamid.A1") (Some "hi");
                WaMessage "15550002" (Some "wamid.B1") (Some "hello")])
         (Some "Alice")))])]).

Definition two_replies : world :=
  run_invocations [calm 1700000000000 AxiosError; calm 1700000000000 AxiosError]
                  (post_webhook two_user_delivery).1 empty_world.

Definition is_outbound (m : message) : bool := String.eqb (msg_direction m) "outbound".

Definition is_interactive (r : outbound_request) : bool :=
  match r with InteractiveRequest _ _ _ _ => true | _ => false end.

(** A delivery whose only message is an image without text. *)
Definition media_only_delivery : delivery :=
  Delivery (Some "whatsapp_business_account")
    (Some [Entry (Some [Change (Some "messages")
      (Some (ChangeValue
         (Some [WaMessage "15550001" (Some "wamid.M1") None])
         (Some "Alice")))])]).

(** A catalog in which [bot_sessions.phone_number] has a unique index. *)
Definition indexes_with_unique_phone : list Schema.index :=
  Schema.Index "uq_sessions_phone" "bot_sessions" "phone_number" true
  :: Schema.indexes.

(** A table with a session of the user that expired at 500 and a live
    session of somebody else. *)
Definition stale_world : world :=
  World [] []
        [Session "15550001" (Some {[ "service" := "image" ]}) (Some "image_input")
                 (Some 500);
         Session "15550002" (Some ∅) (Some "menu_selection") (Some 5000)]
        [] [].

Definition video_session : session :=
  Session "15550001" (Some {[ "service" := "video" ]}) (Some "video_input") None.
Definition info_session : session :=
  Session "15550001" (Some {[ "service" := "info" ]}) (Some "info_input") None.

Definition welcome_session : session :=
  Session "15550001" (Some ∅) (Some "welcome") None.
Definition menu_session : session :=
  Session "15550001" (Some ∅) (Some "menu_selection") None.
Definition image_session : session :=
  Session "15550001" (Some {[ "service" := "image" ]}) (Some "image_input") None.
(** A session whose step is none of the five, and one without a step. *)
Definition checkout_session : session :=
  Session "15550001" (Some ∅) (Some "checkout") None.
Definition stepless_session : session :=
  Session "15550001" (Some ∅) None None.

Definition alice : conversation := Conversation 1 "15550001" (Some "Alice") 0 0.



(** A store with two conversations and four messages, three of them of the
    first user. *)
Definition history_world : world :=
  World [Conversation 1 "15550001" (Some "Alice") 10 10;
         Conversation 2 "15550002" (Some "Bob") 20 20]
        [Message 1 (Some "wamid.A1") "15550001" "text" (Some "hi") None None
                 "inbound" 100 "sent" "{}";
         Message 1 (Some "out_101") "15550001" "interactive" (Some "menu") None
                 None "outbound" 101 "sent" "{}";
         Message 2 (Some "wamid.B1") "15550002" "text" (Some "hello") None None
                 "inbound" 150 "sent" "{}";
         Message 1 (Some "wamid.A2") "15550001" "text" (Some "image") None None
                 "inbound" 200 "sent" "{}"]
        [] [] [].

(** The three steps that call a generation service. *)
Definition input_step (step : option string) : Prop :=
  step = Some "image_input" \/ step = Some "video_input" \/ step = Some "info_input".

(** The session that [processMessage] hands to [saveSession] after a
    response: the payload and the next step of the response. *)
Definition next_session (s : session) (r : step_response) (expiresAt : Z) : session :=
  Session (phone_number s) (Some (sessionData r))
          (Js.or_else (Some (nextStep r)) (current_step s)) (Some expiresAt).

(** What a computation may leave behind: the sessions as they were, and
    the earlier conversations, messages and outbound requests followed by at
    most [nc], [nm] and [no] new ones. *)
Definition adds (nc nm no : nat) (w w' : world) : Prop :=
  bot_sessions w' = bot_sessions w
  /\ (exists cs, conversations w' = conversations w ++ cs /\ (length cs <= nc)%nat)
  /\ (exists ms, messages w' = messages w ++ ms /\ (length ms <= nm)%nat)
  /\ (exists rs, outbox w' = outbox w ++ rs /\ (length rs <= no)%nat).

(** A relation between the world before and the world after that a
    computation establishes whatever it returns or raises. *)
Definition establishes {A} (m : M A) (R : world -> world -> Prop) : Prop :=
  forall w, R w (m w).1.

(** The interactive menu as it leaves for a user. *)
Definition menu_request (phoneNumber : string) : outbound_request :=
  InteractiveRequest phoneNumber welcome_header welcome_body
    [("btn_0", "Generate Image"); ("btn_1", "Generate Video");
     ("btn_2", "Get Information")].

(** The store refuses the first query of a run. *)
Definition store_down (now : Z) : oracle :=
  Oracle (QueryEnv true now) (calm_query now) (calm_query now) (calm_query now)
         (calm_query now) (calm_query now) now now now AxiosError true true.

(** The platform refuses the reply and accepts the apology. *)
Definition reply_refused (now : Z) : oracle :=
  Oracle (calm_query now) (calm_query now) (calm_query now) (calm_query now)
         (calm_query now) (calm_query now) now now now AxiosError false true.

(** The [UNIQUE] constraint of [message_id] holds after if it held before. *)
Definition keeps_unique_ids (w w' : world) : Prop :=
  unique_message_ids (messages w) -> unique_message_ids (messages w').

(** Nothing was sent and no outbound message was recorded. *)
Definition no_reply_recorded (w w' : world) : Prop :=
  outbox w' = outbox w
  /\ filter is_outbound (messages w') = filter is_outbound (messages w).

(** A change that announces messages and carries no value: reading its
    messages throws. *)
Definition broken_change (c : change) : Prop :=
  field c = Some "messages" /\ value c = None.

(** Every change nested in a delivery. *)
Definition delivery_changes (d : delivery) : list change :=
  flat_map (fun e => default [] (changes e)) (default [] (entries d)).

(** What identifies a call of the orchestrator, and the same read off a
    message that has a text. *)
Definition call_of_invocation (i : invocation) : string * option string * string :=
  (inv_phoneNumber i, inv_messageId i, inv_messageText i).
Definition call_of_message (m : wa_message) : string * option string * string :=
  (from m, id m, default "" (text_body m)).
Definition has_text (m : wa_message) : bool := Js.truthy (text_body m).

(** A delivery of three changes, the second without a value. *)
Definition half_broken_delivery : delivery :=
  Delivery (Some "whatsapp_business_account")
    (Some [Entry (Some
       [Change (Some "messages")
          (Some (ChangeValue
             (Some [WaMessage "15550001" (Some "wamid.A1") (Some "hi")])
             (Some "Alice")));
        Change (Some "messages") None;
        Change (Some "messages")
          (Some (ChangeValue
             (Some [WaMessage "15550002" (Some "wamid.B1") (Some "hello")])
             (Some "Bob")))])]).


(** A delivery with two entries; the first has two changes. *)
Definition three_change_delivery : delivery :=
  Delivery (Some "whatsapp_business_account")
    (Some [Entry (Some
             [Change (Some "messages")
                (Some (ChangeValue
                   (Some [WaMessage "15550001" (Some "wamid.A1") (Some "hi")])
                   (Some "Alice")));
              Change (Some "messages")
                (Some (ChangeValue
                   (Some [WaMessage "15550002" (Some "wamid.B1") (Some "hello")])
                   (Some "Bob")))]);
           Entry (Some
             [Change (Some "messages")
                (Some (ChangeValue
                   (Some [WaMessage "15550003" (Some "wamid.C1") (Some "help")])
                   (Some "Carol")))])]).



(** * Properties *)

(** ** Substring tests *)

Module JsFacts.
Import Js.

Lemma startsWith_spec needle : forall hay,
  startsWith needle hay = true <-> exists post, hay = needle +:+ post.
Proof.
  induction needle as [|a n IH]; intros hay; simpl.
  - split; [intros _; by exists hay | done].
  - destruct hay as [|b h].
    + split; [done | intros [post Hp]; discriminate].
    + destruct (Ascii.eqb_spec a b) as [->|Hab].
      * rewrite IH. split; intros [post Hp]; exists post.
        -- by rewrite Hp.
        -- by injection Hp.
      * split; [done | intros [post Hp]; injection Hp; congruence].
Qed.

Lemma includes_spec needle : forall hay,
  includes needle hay = true <-> contains needle hay.
Proof.
  induction hay as [|b h IH].
  - simpl. rewrite orb_false_r, startsWith_spec. split.
    + intros [post Hp]. by exists EmptyString, post.
    + intros ([|c pre] & post & Hp); [by exists post | discriminate].
  - cbn [includes]. rewrite orb_true_iff, startsWith_spec, IH. split.
    + intros [[post Hp] | (pre & post & Hp)].
      * by exists EmptyString, post.
      * exists (String b pre), post. by rewrite Hp.
    + intros ([|c pre] & post & Hp).
      * left. by exists post.
      * right. injection Hp as _ Hp. by exists pre, post.
Qed.

Lemma toLowerCase_app s : forall t,
  toLowerCase (s +:+ t) = toLowerCase s +:+ toLowerCase t.
Proof. induction s as [|c s IH]; intros t; simpl; [done | by rewrite IH]. Qed.

Lemma toLowerCase_split : forall hay a b,
  toLowerCase hay = a +:+ b ->
  exists a' b', hay = a' +:+ b' /\ toLowerCase a' = a /\ toLowerCase b' = b.
Proof.
  intros hay a. revert hay.
  induction a as [|c a IH]; intros hay b H.
  - by exists EmptyString, hay.
  - destruct hay as [|d h]; [discriminate|].
    simpl in H. injection H as Hc Hh.
    destruct (IH h b Hh) as (a' & b' & -> & Ha & Hb).
    exists (String d a'), b'. simpl. by rewrite Ha, Hc.
Qed.

Lemma includes_toLowerCase_spec keyword hay :
  includes keyword (toLowerCase hay) = true <-> contains_ignoring_case keyword hay.
Proof.
  rewrite includes_spec. split.
  - intros (pre & post & H).
    apply toLowerCase_split in H as (pre' & rest & -> & Hpre & H).
    apply toLowerCase_split in H as (mid & post' & -> & Hmid & Hpost).
    by exists pre', mid, post'.
  - intros (pre & mid & post & -> & Hmid).
    exists (toLowerCase pre), (toLowerCase post).
    by rewrite !toLowerCase_app, Hmid.
Qed.

End JsFacts.

(** ** Dialog engine *)

Section DialogEngine.

Variables (ax : axios_outcome) (s : session) (messageText : string)
          (conv : conversation) (w : world).

Lemma handleStep_welcome :
  current_step s = Some "welcome" ->
  handleStep ax s messageText conv w
  = (w, Returned (StepResponse (interactive welcome_header welcome_body menu_buttons)
                               "menu_selection" (default ∅ (session_data s)))).
Proof. intros H. unfold handleStep. by rewrite H. Qed.

Lemma handleStep_menu_selection :
  current_step s = Some "menu_selection" ->
  handleStep ax s messageText conv w
  = (w, Returned (menu_selection (default ∅ (session_data s)) messageText)).
Proof. intros H. unfold handleStep. by rewrite H. Qed.

Lemma handleStep_default :
  unrecognized (current_step s) ->
  handleStep ax s messageText conv w
  = (w, Returned (StepResponse (text (Some greeting)) "welcome" ∅)).
Proof.
  intros H. unfold handleStep.
  repeat (let E := fresh "E" in
          case_bool_decide as E;
          [exfalso; apply (H _ E); unfold recognized_steps;
           repeat first [apply list_elem_of_here | apply list_elem_of_further]|]).
  done.
Qed.

End DialogEngine.

(** C3, as amended. In step [welcome], [handleStep] answers any text with the
    interactive menu (buttons "Generate Image", "Generate Video", "Get
    Information"), keeps the payload and moves to [menu_selection]. When the
    step is absent or none of the five, it answers with the greeting text
    instead, clears the payload and moves to [welcome]. *)
Theorem handleStep_welcome_or_unrecognized (ax : axios_outcome) (s : session)
    (messageText : string) (conv : conversation) (w : world) :
  (current_step s = Some "welcome" ->
   handleStep ax s messageText conv w
   = (w, Returned (StepResponse
                     (interactive welcome_header welcome_body
                        ["Generate Image"; "Generate Video"; "Get Information"])
                     "menu_selection" (default ∅ (session_data s)))))
  /\ (unrecognized (current_step s) ->
      handleStep ax s messageText conv w
      = (w, Returned (StepResponse (text (Some greeting)) "welcome" ∅))).
Proof.
  split.
  - apply handleStep_welcome.
  - apply handleStep_default.
Qed.

Lemma handleStep_welcome_or_unrecognized_witness :
  handleStep AxiosError welcome_session "hi" alice empty_world
  = (empty_world,
     Returned (StepResponse
                 (interactive welcome_header welcome_body
                    ["Generate Image"; "Generate Video"; "Get Information"])
                 "menu_selection" ∅))
  /\ handleStep AxiosError stepless_session "hi" alice empty_world
     = (empty_world, Returned (StepResponse (text (Some greeting)) "welcome" ∅)).
Proof.
  split.
  - apply (proj1 (handleStep_welcome_or_unrecognized
                    AxiosError welcome_session "hi" alice empty_world)).
    reflexivity.
  - apply (proj2 (handleStep_welcome_or_unrecognized
                    AxiosError stepless_session "hi" alice empty_world)).
    intros name H. discriminate H.
Defined.

(** C3, as stated, fails: with a step that is none of the five, and with no
    step at all, the response is not the interactive menu and the next step
    is not [menu_selection]. *)
Lemma handleStep_unrecognized_counterexample :
  unrecognized (current_step checkout_session)
  /\ unrecognized (current_step stepless_session)
  /\ handleStep AxiosError checkout_session "hi" alice empty_world
     = (empty_world, Returned (StepResponse (text (Some greeting)) "welcome" ∅))
  /\ handleStep AxiosError stepless_session "hi" alice empty_world
     = (empty_world, Returned (StepResponse (text (Some greeting)) "welcome" ∅))
  /\ handleStep AxiosError checkout_session "hi" alice empty_world
     <> (empty_world,
         Returned (StepResponse
                     (interactive welcome_header welcome_body
                        ["Generate Image"; "Generate Video"; "Get Information"])
                     "menu_selection" ∅)).
Proof.
  assert (unrecognized (current_step checkout_session)) as Hc.
  { intros name [= <-] Hin. unfold recognized_steps in Hin.
    repeat (apply elem_of_cons in Hin as [Hin|Hin]; [discriminate Hin|]).
    by apply elem_of_nil in Hin. }
  assert (unrecognized (current_step stepless_session)) as Hs.
  { intros name H. discriminate H. }
  split; [exact Hc|]. split; [exact Hs|].
  split; [by apply handleStep_default|].
  split; [by apply handleStep_default|].
  rewrite handleStep_default by exact Hc. intros H. discriminate H.
Qed.

(** C5. In step [menu_selection] the three branches are tried in the order
    image, video, information, each on the literal button title or, ignoring
    case, on the bare keyword; the first that matches decides the prompt,
    the next step and the [service] tag added to the payload. A text that
    matches none keeps the step and the payload and is answered with the
    request to pick a valid option. *)
Theorem menu_selection_first_match_wins (ax : axios_outcome) (s : session)
    (messageText : string) (conv : conversation) (w : world) :
  current_step s = Some "menu_selection" ->
  exists r,
    handleStep ax s messageText conv w = (w, Returned r)
    /\ (selects_image messageText ->
        r = StepResponse (text (Some image_prompt)) "image_input"
              (<["service" := "image"]> (default ∅ (session_data s))))
    /\ (~ selects_image messageText -> selects_video messageText ->
        r = StepResponse (text (Some video_prompt)) "video_input"
              (<["service" := "video"]> (default ∅ (session_data s))))
    /\ (~ selects_image messageText -> ~ selects_video messageText ->
        selects_information messageText ->
        r = StepResponse (text (Some info_prompt)) "info_input"
              (<["service" := "info"]> (default ∅ (session_data s))))
    /\ (~ selects_image messageText -> ~ selects_video messageText ->
        ~ selects_information messageText ->
        r = StepResponse (text (Some invalid_option)) "menu_selection"
              (default ∅ (session_data s))).
Proof.
  intros Hstep. eexists. split; [by apply handleStep_menu_selection|].
  unfold menu_selection, selects_image, selects_video, selects_information.
  rewrite <- !JsFacts.includes_spec, <- !JsFacts.includes_toLowerCase_spec.
  rewrite <- !orb_true_iff.
  destruct (_ || Js.includes "image" _), (_ || Js.includes "video" _),
    (_ || Js.includes "information" _);
    simpl; repeat split; intros; congruence.
Qed.

Lemma menu_selection_first_match_wins_witness :
  exists r,
    handleStep AxiosError menu_session "an IMAGE, then a video" alice empty_world
    = (empty_world, Returned r)
    /\ nextStep r = "image_input"
    /\ sessionData r = {[ "service" := "image" ]}.
Proof.
  destruct (menu_selection_first_match_wins AxiosError menu_session
              "an IMAGE, then a video" alice empty_world eq_refl)
    as (r & Hrun & Himage & _).
  exists r. split; [exact Hrun|].
  rewrite Himage; [split; reflexivity|].
  right. exists "an ", "IMAGE", ", then a video". split; reflexivity.
Defined.

(** ** Generation gateway *)

Lemma callCustomAPI_returns (ax : axios_outcome) (service : string)
    (data : payload) (w : world) :
  exists r,
    callCustomAPI ax service data w
    = (set_api_calls (fun calls => calls ++ [(service, data)]) w, Returned r).
Proof. destruct ax; eexists; reflexivity. Qed.

Lemma callCustomAPI_fallback (service : string) (data : payload) (w : world) :
  callCustomAPI AxiosError service data w
  = (set_api_calls (fun calls => calls ++ [(service, data)]) w,
     Returned (Some fallback)).
Proof. reflexivity. Qed.

(** C6. [callCustomAPI] never raises, whatever the upstream call does, and
    when the upstream call fails it returns the fixed fallback; [handleStep]
    in [image_input], [video_input] and [info_input] then still returns a
    well-formed response built from the placeholder image URL, the
    placeholder video URL or the apology text, with next step [welcome] and
    an empty payload. *)
Theorem generation_failure_degrades_gracefully (ax : axios_outcome)
    (service : string) (data : payload) (s : session) (messageText : string)
    (conv : conversation) (w : world) :
  returns (callCustomAPI ax service data w)
  /\ (callCustomAPI AxiosError service data w).2
     = Returned (Some (ApiResult
         (Some "https://via.placeholder.com/400x400?text=Error+Generating+Image")
         (Some "https://sample-videos.com/zip/10/mp4/SampleVideo_1280x720_1mb.mp4")
         (Some "Sorry, I could not process your request right now. Please try again later.")))
  /\ (current_step s = Some "image_input" ->
      exists w' r,
        handleStep AxiosError s messageText conv w = (w', Returned r)
        /\ kind r = media
             (Some "https://via.placeholder.com/400x400?text=Error+Generating+Image")
             "image" (image_caption messageText)
        /\ well_formed (kind r) /\ nextStep r = "welcome" /\ sessionData r = ∅)
  /\ (current_step s = Some "video_input" ->
      exists w' r,
        handleStep AxiosError s messageText conv w = (w', Returned r)
        /\ kind r = media
             (Some "https://sample-videos.com/zip/10/mp4/SampleVideo_1280x720_1mb.mp4")
             "video" (video_caption messageText)
        /\ well_formed (kind r) /\ nextStep r = "welcome" /\ sessionData r = ∅)
  /\ (current_step s = Some "info_input" ->
      exists w' r,
        handleStep AxiosError s messageText conv w = (w', Returned r)
        /\ kind r = text
             (Some "Sorry, I could not process your request right now. Please try again later.")
        /\ well_formed (kind r) /\ nextStep r = "welcome" /\ sessionData r = ∅).
Proof.
  split.
  { destruct (callCustomAPI_returns ax service data w) as [r Hr].
    exists r. by rewrite Hr. }
  split; [by rewrite callCustomAPI_fallback|].
  repeat split; intros Hstep; unfold handleStep; rewrite Hstep; simpl;
    do 2 eexists; (split; [reflexivity|]); simpl; auto 10.
Qed.

Lemma generation_failure_degrades_gracefully_witness :
  (exists w' r,
     handleStep AxiosError image_session "a red bicycle" alice empty_world
     = (w', Returned r)
     /\ kind r = media
          (Some "https://via.placeholder.com/400x400?text=Error+Generating+Image")
          "image" (image_caption "a red bicycle")
     /\ well_formed (kind r) /\ nextStep r = "welcome" /\ sessionData r = ∅)
  /\ (exists w' r,
        handleStep AxiosError video_session "a red bicycle" alice empty_world
        = (w', Returned r)
        /\ kind r = media
             (Some "https://sample-videos.com/zip/10/mp4/SampleVideo_1280x720_1mb.mp4")
             "video" (video_caption "a red bicycle")
        /\ well_formed (kind r) /\ nextStep r = "welcome" /\ sessionData r = ∅)
  /\ (exists w' r,
        handleStep AxiosError info_session "opening hours" alice empty_world
        = (w', Returned r)
        /\ kind r = text
             (Some "Sorry, I could not process your request right now. Please try again later.")
        /\ well_formed (kind r) /\ nextStep r = "welcome" /\ sessionData r = ∅).
Proof.
  split; [|split].
  - apply (generation_failure_degrades_gracefully AxiosError "image" ∅
             image_session "a red bicycle" alice empty_world).
    reflexivity.
  - apply (generation_failure_degrades_gracefully AxiosError "video" ∅
             video_session "a red bicycle" alice empty_world).
    reflexivity.
  - apply (generation_failure_degrades_gracefully AxiosError "info" ∅
             info_session "opening hours" alice empty_world).
    reflexivity.
Defined.

(** ** Persistence gateway *)

Lemma filter_bool_cons {A} (f : A -> bool) (x : A) (l : list A) :
  filter f (x :: l) = if f x then x :: filter f l else filter f l.
Proof. rewrite filter_cons. by destruct (f x); case_decide. Qed.

Lemma filter_bool_app_one {A} (f : A -> bool) (x : A) (l : list A) :
  filter f (l ++ [x]) = filter f l ++ (if f x then [x] else []).
Proof. rewrite filter_app, filter_bool_cons. by destruct (f x). Qed.

Lemma existsb_filter {A} (f : A -> bool) (l : list A) :
  existsb f l = false <-> filter f l = [].
Proof.
  induction l as [|x l IH]; [done|].
  rewrite filter_bool_cons. simpl. destruct (f x); simpl; [done|exact IH].
Qed.

Lemma query_ok (q : query_env) (operation : string) (w : world) :
  q_fail q = false -> query q operation w = (w, Returned tt).
Proof. intros H. unfold query. by rewrite H. Qed.

Lemma query_failed (q : query_env) (operation : string) (w : world) :
  q_fail q = true -> query q operation w = (w, Raised (StoreError operation "query failed")).
Proof. intros H. unfold query. by rewrite H. Qed.

Section SaveMessage.

Variables (q : query_env) (conversationId : Z) (messageId : option string)
          (phoneNumber messageType : string)
          (content mediaUrl mediaType : option string) (direction : string)
          (w : world).

Lemma saveMessage_conflict :
  q_fail q = false ->
  existsb (has_message_id messageId) (messages w) = true ->
  saveMessage q conversationId messageId phoneNumber messageType content
              mediaUrl mediaType direction w
  = (w, Returned None).
Proof.
  intros Hq Hex. unfold saveMessage, bind. rewrite (query_ok _ _ _ Hq).
  simpl. by rewrite Hex.
Qed.

Lemma saveMessage_insert :
  q_fail q = false ->
  existsb (has_message_id messageId) (messages w) = false ->
  saveMessage q conversationId messageId phoneNumber messageType content
              mediaUrl mediaType direction w
  = (set_messages (fun rows => rows ++ [new_row q conversationId messageId
                                          phoneNumber messageType content
                                          mediaUrl mediaType direction]) w,
     Returned (Some (new_row q conversationId messageId phoneNumber messageType
                             content mediaUrl mediaType direction))).
Proof.
  intros Hq Hex. unfold saveMessage, bind. rewrite (query_ok _ _ _ Hq).
  simpl. by rewrite Hex.
Qed.

Lemma saveMessage_failed :
  q_fail q = true ->
  saveMessage q conversationId messageId phoneNumber messageType content
              mediaUrl mediaType direction w
  = (w, Raised (StoreError "saveMessage" "query failed")).
Proof.
  intros Hq. unfold saveMessage, bind. by rewrite (query_failed _ _ _ Hq).
Qed.

(** [saveMessage] touches nothing but the table of messages. *)
Lemma saveMessage_frame :
  let w' := (saveMessage q conversationId messageId phoneNumber messageType
               content mediaUrl mediaType direction w).1 in
  conversations w' = conversations w /\ bot_sessions w' = bot_sessions w
  /\ outbox w' = outbox w /\ api_calls w' = api_calls w.
Proof.
  destruct (q_fail q) eqn:Hq; [by rewrite saveMessage_failed|].
  destruct (existsb (has_message_id messageId) (messages w)) eqn:Hex.
  - by rewrite saveMessage_conflict.
  - by rewrite saveMessage_insert.
Qed.

(** The [UNIQUE] constraint on [message_id] is an invariant of [saveMessage]. *)
Lemma saveMessage_unique :
  unique_message_ids (messages w) ->
  unique_message_ids
    (messages (saveMessage q conversationId messageId phoneNumber messageType
                 content mediaUrl mediaType direction w).1).
Proof.
  intros Hu.
  destruct (q_fail q) eqn:Hq; [by rewrite saveMessage_failed|].
  destruct (existsb (has_message_id messageId) (messages w)) eqn:Hex.
  - by rewrite saveMessage_conflict.
  - rewrite saveMessage_insert by done. simpl. intros other.
    unfold message_count. rewrite filter_bool_app_one, length_app.
    destruct (has_message_id (Some other) (new_row _ _ _ _ _ _ _ _ _)) eqn:Hrow.
    + destruct messageId as [mine|]; [|done]. simpl in Hrow.
      apply String.eqb_eq in Hrow as ->.
      apply existsb_filter in Hex. by rewrite Hex.
    + specialize (Hu other). unfold message_count in Hu.
      cbn [length]. lia.
Qed.

End SaveMessage.

Lemma existsb_message_count (messageId : string) (rows : list message) :
  existsb (has_message_id (Some messageId)) rows = true
  <-> (0 < message_count messageId rows)%nat.
Proof.
  unfold message_count.
  destruct (existsb _ rows) eqn:Hex.
  - split; [intros _|done].
    destruct (filter _ rows) eqn:Hf; [|simpl; lia].
    apply existsb_filter in Hf. congruence.
  - apply existsb_filter in Hex. rewrite Hex. simpl. split; [done|lia].
Qed.

(** Two calls with one platform message id: the second is absorbed. *)
Lemma saveMessage_twice (q1 q2 : query_env) (c1 c2 : Z) (messageId : string)
    (p1 p2 t1 t2 : string) (ct1 ct2 u1 u2 mt1 mt2 : option string)
    (d1 d2 : string) (w : world) :
  unique_message_ids (messages w) ->
  q_fail q1 = false -> q_fail q2 = false ->
  let first := saveMessage q1 c1 (Some messageId) p1 t1 ct1 u1 mt1 d1 w in
  returns first
  /\ message_count messageId (messages first.1) = 1%nat
  /\ saveMessage q2 c2 (Some messageId) p2 t2 ct2 u2 mt2 d2 first.1
     = (first.1, Returned None)
  /\ (message_count messageId (messages w) = 0%nat ->
      filter (has_message_id (Some messageId)) (messages first.1)
      = [Message c1 (Some messageId) p1 t1 ct1 u1 mt1 d1 (q_now q1) "sent" "{}"]).
Proof.
  intros Hu Hq1 Hq2.
  destruct (existsb (has_message_id (Some messageId)) (messages w)) eqn:Hex.
  - rewrite saveMessage_conflict by done. cbn [fst].
    pose proof (proj1 (existsb_message_count _ _) Hex) as Hpos.
    specialize (Hu messageId).
    split; [by eexists|]. split; [lia|].
    split; [by apply saveMessage_conflict|]. lia.
  - rewrite saveMessage_insert by done. unfold new_row. cbn [fst].
    pose proof (proj1 (existsb_filter _ _) Hex) as Hnone.
    assert (filter (has_message_id (Some messageId))
              (messages (set_messages
                 (fun rows => rows ++
                    [Message c1 (Some messageId) p1 t1 ct1 u1 mt1 d1
                             (q_now q1) "sent" "{}"]) w))
            = [Message c1 (Some messageId) p1 t1 ct1 u1 mt1 d1
                       (q_now q1) "sent" "{}"]) as Hone.
    { cbn [messages set_messages]. rewrite filter_bool_app_one, Hnone.
      cbn [has_message_id msg_message_id]. by rewrite String.eqb_refl. }
    split; [by eexists|].
    split; [unfold message_count; by rewrite Hone|].
    split; [|done].
    apply saveMessage_conflict; [done|].
    apply existsb_message_count. unfold message_count. rewrite Hone. simpl. lia.
Qed.

(** C2. Two calls of [saveMessage] with one platform message id, the store
    running both statements: exactly one row carries the id afterwards, the
    second call raises nothing, returns the no-op result ([undefined]) and
    changes nothing; when the id was new, the stored row is the one of the
    first call, field by field. *)
Theorem saveMessage_idempotent (q1 q2 : query_env) (c1 c2 : Z)
    (platformMessageId : string) (p1 p2 t1 t2 : string)
    (ct1 ct2 u1 u2 mt1 mt2 : option string) (d1 d2 : string) (w : world) :
  unique_message_ids (messages w) ->
  q_fail q1 = false -> q_fail q2 = false ->
  let first := saveMessage q1 c1 (Some platformMessageId) p1 t1 ct1 u1 mt1 d1 w in
  let second := saveMessage q2 c2 (Some platformMessageId) p2 t2 ct2 u2 mt2 d2 first.1 in
  second = (first.1, Returned None)
  /\ message_count platformMessageId (messages second.1) = 1%nat
  /\ (message_count platformMessageId (messages w) = 0%nat ->
      filter (has_message_id (Some platformMessageId)) (messages second.1)
      = [Message c1 (Some platformMessageId) p1 t1 ct1 u1 mt1 d1 (q_now q1) "sent" "{}"]).
Proof.
  intros Hu Hq1 Hq2 first second.
  destruct (saveMessage_twice q1 q2 c1 c2 platformMessageId p1 p2 t1 t2
              ct1 ct2 u1 u2 mt1 mt2 d1 d2 w Hu Hq1 Hq2)
    as (_ & Hcount & Hsecond & Hrow).
  fold first in Hcount, Hsecond, Hrow. fold second in Hsecond.
  rewrite Hsecond. cbn [fst]. done.
Qed.

Lemma unique_message_ids_nil : unique_message_ids [].
Proof. intros messageId. unfold message_count. simpl. lia. Qed.

Lemma saveMessage_idempotent_witness :
  second_delivery = (first_delivery.1, Returned None)
  /\ message_count "wamid.A1" (messages second_delivery.1) = 1%nat
  /\ (message_count "wamid.A1" (messages empty_world) = 0%nat ->
      filter (has_message_id (Some "wamid.A1")) (messages second_delivery.1)
      = [Message 1 (Some "wamid.A1") "15550001" "text" (Some "hi") None None
                 "inbound" 10 "sent" "{}"]).
Proof.
  apply (saveMessage_idempotent (calm_query 10) (calm_query 20) 1 1 "wamid.A1"
           "15550001" "15550001" "text" "text" (Some "hi") (Some "hi again")
           None None None None "inbound" "inbound" empty_world).
  - exact unique_message_ids_nil.
  - reflexivity.
  - reflexivity.
Defined.

(** *** Sessions *)

Lemma conflict_target_sessions (operation : string) (w : world) :
  conflict_target Schema.indexes Schema.bot_sessions "phone_number" operation w
  = (w, Raised (StoreError operation
       "there is no unique or exclusion constraint matching the ON CONFLICT specification")).
Proof. reflexivity. Qed.

(** C1 fails on the code. [bot_sessions] is created without a unique index on
    [phone_number], so the store rejects the [ON CONFLICT (phone_number)]
    statement of [saveSession]: every call raises and stores nothing; in
    particular no row for the user exists after the first call. *)
Theorem saveSession_rejected (q : query_env) (userId : string) (sessionData : payload)
    (step : option string) (expiresAt : Z) (w : world) :
  Schema.has_unique_index Schema.indexes Schema.bot_sessions "phone_number" = false
  /\ (exists detail,
        saveSession q userId sessionData step expiresAt w
        = (w, Raised (StoreError "saveSession" detail)))
  /\ sessions_of userId
       (bot_sessions (saveSession q userId sessionData step expiresAt empty_world).1)
     = [].
Proof.
  split; [reflexivity|].
  unfold saveSession, saveSession_on, bind.
  destruct (q_fail q) eqn:Hq.
  - rewrite !(query_failed _ _ _ Hq). split; [by eexists|done].
  - rewrite !(query_ok _ _ _ Hq), !conflict_target_sessions.
    split; [by eexists|done].
Qed.

(** With a unique index on [phone_number] the same statement is the upsert
    its text describes: afterwards the user has exactly one row, made of the
    arguments. *)
Lemma saveSession_on_unique_index (ixs : list Schema.index) (q : query_env)
    (userId : string) (sessionData : payload) (step : option string)
    (expiresAt : Z) (w : world) :
  Schema.has_unique_index ixs Schema.bot_sessions "phone_number" = true ->
  q_fail q = false ->
  (length (sessions_of userId (bot_sessions w)) <= 1)%nat ->
  let after := saveSession_on ixs q userId sessionData step expiresAt w in
  returns after
  /\ sessions_of userId (bot_sessions after.1)
     = [Session userId (Some sessionData) step (Some expiresAt)].
Proof.
  intros Hix Hq Hone. unfold saveSession_on, bind, conflict_target.
  rewrite (query_ok _ _ _ Hq), Hix. simpl.
  set (s := Session userId (Some sessionData) step (Some expiresAt)).
  unfold sessions_of in *.
  destruct (existsb _ (bot_sessions w)) eqn:Hex; simpl.
  - split; [by eexists|].
    revert Hone Hex. generalize (bot_sessions w) as rows.
    induction rows as [|r rows IH]; [done|].
    rewrite filter_bool_cons. cbn [existsb map].
    destruct (String.eqb (phone_number r) userId) eqn:Hr.
    + cbn [length]. intros Hone _.
      assert (filter (fun r => String.eqb (phone_number r) userId) rows = []) as Hnil.
      { destruct (filter _ rows); [done|simpl in Hone; lia]. }
      rewrite filter_bool_cons. cbn [phone_number s]. rewrite String.eqb_refl.
      f_equal. clear -Hnil. induction rows as [|r' rows IH]; [done|].
      rewrite filter_bool_cons in Hnil. cbn [map].
      destruct (String.eqb (phone_number r') userId) eqn:Hr'; [done|].
      rewrite filter_bool_cons, Hr'. by apply IH.
    + intros Hone Hex. simpl in Hex. rewrite filter_bool_cons, Hr. by apply IH.
  - split; [by eexists|].
    apply existsb_filter in Hex.
    rewrite filter_bool_app_one, Hex. cbn [phone_number s].
    by rewrite String.eqb_refl.
Qed.

Example saveSession_on_unique_index_run :
  sessions_of "15550001"
    (bot_sessions (saveSession_on indexes_with_unique_phone (calm_query 1000)
                     "15550001" ∅ (Some "menu_selection") 1801000 stale_world).1)
  = [Session "15550001" (Some ∅) (Some "menu_selection") (Some 1801000)].
Proof. vm_compute. reflexivity. Qed.

Lemma getSession_ok (q : query_env) (userId : string) (w : world) :
  q_fail q = false ->
  getSession q userId w
  = (w, Returned (head (filter (fun s => String.eqb (phone_number s) userId
                                         && live (q_now q) s)
                               (bot_sessions w)))).
Proof. intros Hq. unfold getSession, bind. by rewrite (query_ok _ _ _ Hq). Qed.



Lemma head_filter_None {A} (f : A -> bool) (l : list A) :
  head (filter f l) = None <-> forall x, x ∈ l -> f x = false.
Proof.
  induction l as [|y l IH].
  - split; [|done]. intros _ x Hx. by apply elem_of_nil in Hx.
  - rewrite filter_bool_cons. destruct (f y) eqn:Hy.
    + split; [done|]. intros H. specialize (H y (list_elem_of_here _ _)). congruence.
    + rewrite IH. split.
      * intros H x [->|Hx]%elem_of_cons; auto.
      * intros H x Hx. apply H. by apply list_elem_of_further.
Qed.

Lemma getSession_none (q : query_env) (userId : string) (w : world) :
  q_fail q = false ->
  no_live_session (q_now q) userId (bot_sessions w) ->
  getSession q userId w = (w, Returned None).
Proof.
  intros Hq Hnone. rewrite getSession_ok by done. do 2 f_equal.
  apply head_filter_None. intros s Hs.
  destruct (String.eqb_spec (phone_number s) userId) as [Hp|Hp]; [|done].
  simpl. unfold live. destruct (expires_at s) as [e|] eqn:He; [|done].
  apply Z.ltb_ge. by apply (Hnone s).
Qed.

Lemma no_live_session_forallb (now : Z) (userId : string) (rows : list session) :
  forallb (fun s => negb (String.eqb (phone_number s) userId && live now s)) rows
  = true ->
  no_live_session now userId rows.
Proof.
  intros Hall s Hs Hp e He.
  rewrite forallb_forall in Hall.
  specialize (Hall s (proj1 (list_elem_of_In _ _) Hs)).
  unfold live in Hall. rewrite He, Hp, String.eqb_refl in Hall. simpl in Hall.
  apply negb_true_iff, Z.ltb_ge in Hall. exact Hall.
Qed.

(** ** Sequencing *)

Lemma bind_returned {A B} (m : M A) (k : A -> M B) (w w' : world) (a : A) :
  m w = (w', Returned a) -> bind m k w = k a w'.
Proof. intros H. unfold bind. by rewrite H. Qed.

Lemma bind_raised {A B} (m : M A) (k : A -> M B) (w w' : world) (e : exn) :
  m w = (w', Raised e) -> bind m k w = (w', Raised e).
Proof. intros H. unfold bind. by rewrite H. Qed.

Lemma bind_raises {A B} (m : M A) (k : A -> M B) (w : world) :
  (forall a w', raises (k a w')) -> raises (bind m k w).
Proof.
  intros Hk. unfold bind. destruct (m w) as [w' [a|e]]; [apply Hk|by exists e].
Qed.

Lemma try_catch_raised {A} (m : M A) (h : exn -> M A) (w : world) :
  raises (m w) -> exists e, m w = ((m w).1, Raised e) /\ try_catch m h w = h e (m w).1.
Proof.
  intros [e He]. exists e. unfold try_catch.
  destruct (m w) as [w' r]. simpl in *. by subst r.
Qed.

Lemma try_catch_returns {A} (m : M A) (h : exn -> M A) (w : world) :
  (forall e w', returns (h e w')) -> returns (try_catch m h w).
Proof.
  intros Hh. unfold try_catch. destruct (m w) as [w' [a|e]]; [by exists a|apply Hh].
Qed.

(** ** Pipeline orchestrator *)

Lemma saveSession_raises (q : query_env) (userId : string) (sessionData : payload)
    (step : option string) (expiresAt : Z) (w : world) :
  exists detail,
    saveSession q userId sessionData step expiresAt w
    = (w, Raised (StoreError "saveSession" detail)).
Proof.
  unfold saveSession, saveSession_on, bind.
  destruct (q_fail q) eqn:Hq.
  - rewrite (query_failed _ _ _ Hq). by eexists.
  - rewrite (query_ok _ _ _ Hq), conflict_target_sessions. by eexists.
Qed.

Lemma dispatch_refused (phoneNumber : string) (k : response_kind) (w : world) :
  exists operation,
    dispatch false phoneNumber k w = (w, Raised (DeliveryError operation)).
Proof. destruct k; eexists; reflexivity. Qed.

Lemma respond_raises_when_reply_refused (o : oracle) (phoneNumber messageText : string)
    (conv : conversation) (s : session) (w : world) :
  reply_delivered o = false ->
  raises (respond o phoneNumber messageText conv s w).
Proof.
  intros Hreply. unfold respond. apply bind_raises. intros r w'.
  rewrite Hreply.
  destruct (dispatch_refused phoneNumber (kind r) w') as [op Hop].
  rewrite (bind_raised _ _ _ _ _ Hop). by eexists.
Qed.

(** The body of the [try] never completes: its last statement is the
    [saveSession] that the store rejects. *)
Lemma respond_raises (o : oracle) (phoneNumber messageText : string)
    (conv : conversation) (s : session) (w : world) :
  raises (respond o phoneNumber messageText conv s w).
Proof.
  unfold respond.
  apply bind_raises; intros r w1.
  apply bind_raises; intros _ w2.
  apply bind_raises; intros _ w3.
  destruct (saveSession_raises (q_save_session o) phoneNumber (sessionData r)
              (Js.or_else (Some (nextStep r)) (current_step s))
              (now_session_expiry o + thirty_minutes) w3) as [detail Hd].
  rewrite Hd. by eexists.
Qed.

Lemma processMessage_try_raises_when_reply_refused (o : oracle)
    (phoneNumber messageText : string) (messageId userName : option string)
    (w : world) :
  reply_delivered o = false ->
  raises (processMessage_try o phoneNumber messageText messageId userName w).
Proof.
  intros Hreply. unfold processMessage_try.
  apply bind_raises; intros conv w1.
  apply bind_raises; intros _ w2.
  apply bind_raises; intros found w3.
  by apply respond_raises_when_reply_refused.
Qed.

(** When the apology goes through, the orchestrator returns normally. *)
Lemma processMessage_contained (o : oracle) (phoneNumber messageText : string)
    (messageId userName : option string) (w : world) :
  apology_delivered o = true ->
  returns (processMessage o phoneNumber messageText messageId userName w).
Proof.
  intros Hap. unfold processMessage. apply try_catch_returns.
  intros e w'. rewrite Hap. by eexists.
Qed.

(** C4 fails on the code. The apology is sent from the [catch] of
    [processMessage] with nothing around it: when the platform refuses both
    the reply and the apology, the [DeliveryError] of the apology leaves
    [processMessage]. *)
Theorem processMessage_raises_when_apology_fails (o : oracle)
    (phoneNumber messageText : string) (messageId userName : option string)
    (w : world) :
  reply_delivered o = false ->
  apology_delivered o = false ->
  (processMessage o phoneNumber messageText messageId userName w).2
  = Raised (DeliveryError "sendMessage").
Proof.
  intros Hreply Hap. unfold processMessage.
  destruct (try_catch_raised
              (processMessage_try o phoneNumber messageText messageId userName)
              (fun error => sendMessage (apology_delivered o) phoneNumber (Some apology))
              w) as (e & _ & ->).
  - by apply processMessage_try_raises_when_reply_refused.
  - by rewrite Hap.
Qed.

Lemma processMessage_raises_when_apology_fails_witness :
  (processMessage (platform_down 1000) "15550001" "hi" (Some "wamid.A1")
                  (Some "Alice") empty_world).2
  = Raised (DeliveryError "sendMessage").
Proof.
  apply (processMessage_raises_when_apology_fails (platform_down 1000) "15550001"
           "hi" (Some "wamid.A1") (Some "Alice") empty_world).
  - reflexivity.
  - reflexivity.
Defined.

(** On the schema of [initializeDatabase] the orchestrator returns normally
    exactly when the apology goes through. *)
Lemma processMessage_outcome (o : oracle) (phoneNumber messageText : string)
    (messageId userName : option string) (w : world) :
  returns (processMessage o phoneNumber messageText messageId userName w)
  <-> apology_delivered o = true.
Proof.
  split; [|apply processMessage_contained].
  unfold processMessage.
  destruct (try_catch_raised
              (processMessage_try o phoneNumber messageText messageId userName)
              (fun error => sendMessage (apology_delivered o) phoneNumber (Some apology))
              w) as (e & _ & ->).
  - unfold processMessage_try.
    apply bind_raises; intros conv w1.
    apply bind_raises; intros _ w2.
    apply bind_raises; intros found w3.
    apply respond_raises.
  - destruct (apology_delivered o); [done|]. intros [a Ha]. discriminate Ha.
Qed.

(** First contact on the schema of [initializeDatabase]: the menu is sent,
    both messages are recorded, the update of the session is rejected, and
    the apology follows; no session is stored. *)
Example first_contact_run :
  let w := (processMessage (calm 1000 AxiosError) "15550001" "hi" (Some "wamid.A1")
              (Some "Alice") empty_world).1 in
  outbox w
  = [InteractiveRequest "15550001" welcome_header welcome_body
       [("btn_0", "Generate Image"); ("btn_1", "Generate Video");
        ("btn_2", "Get Information")];
     TextRequest "15550001" (Some apology)]
  /\ map msg_message_id (messages w) = [Some "wamid.A1"; Some "out_1000"]
  /\ bot_sessions w = [].
Proof. vm_compute. done. Qed.

Section Conversation.

Variables (q_select q_insert : query_env) (phoneNumber : string)
          (userName : option string) (w : world).

(** [getOrCreateConversation] touches nothing but the table of
    conversations. *)
Lemma getOrCreateConversation_frame :
  let w' := (getOrCreateConversation q_select q_insert phoneNumber userName w).1 in
  messages w' = messages w /\ bot_sessions w' = bot_sessions w
  /\ outbox w' = outbox w /\ api_calls w' = api_calls w.
Proof.
  unfold getOrCreateConversation, bind, query.
  destruct (q_fail q_select); [done|]. simpl.
  destruct (latest_conversation phoneNumber (conversations w)); [done|].
  by destruct (q_fail q_insert).
Qed.

Lemma getOrCreateConversation_returns :
  q_fail q_select = false -> q_fail q_insert = false ->
  returns (getOrCreateConversation q_select q_insert phoneNumber userName w).
Proof.
  intros Hs Hi. unfold getOrCreateConversation, bind, query.
  rewrite Hs. simpl.
  destruct (latest_conversation phoneNumber (conversations w)); [by eexists|].
  rewrite Hi. by eexists.
Qed.

End Conversation.

Lemma saveMessage_returns (q : query_env) (conversationId : Z)
    (messageId : option string) (phoneNumber messageType : string)
    (content mediaUrl mediaType : option string) (direction : string) (w : world) :
  q_fail q = false ->
  returns (saveMessage q conversationId messageId phoneNumber messageType content
             mediaUrl mediaType direction w).
Proof.
  intros Hq. destruct (existsb (has_message_id messageId) (messages w)) eqn:Hex.
  - rewrite saveMessage_conflict by done. by eexists.
  - rewrite saveMessage_insert by done. by eexists.
Qed.

(** With no live session the dialog starts from the fresh session. *)
Lemma processMessage_try_fresh (o : oracle) (phoneNumber messageText : string)
    (messageId userName : option string) (w : world) :
  q_fail (q_select_conversation o) = false ->
  q_fail (q_insert_conversation o) = false ->
  q_fail (q_save_inbound o) = false ->
  q_fail (q_get_session o) = false ->
  no_live_session (q_now (q_get_session o)) phoneNumber (bot_sessions w) ->
  exists conv w',
    bot_sessions w' = bot_sessions w /\ outbox w' = outbox w
    /\ processMessage_try o phoneNumber messageText messageId userName w
       = respond o phoneNumber messageText conv
           (freshSession phoneNumber (now_default_session o)) w'.
Proof.
  intros Hs Hi Hin Hg Hnone. unfold processMessage_try.
  pose proof (getOrCreateConversation_returns _ _ phoneNumber userName w Hs Hi)
    as [conv Hconv].
  pose proof (getOrCreateConversation_frame (q_select_conversation o)
                (q_insert_conversation o) phoneNumber userName w)
    as (_ & Hb1 & Ho1 & _).
  destruct (getOrCreateConversation _ _ phoneNumber userName w)
    as [w1 r1] eqn:E1.
  simpl in Hconv, Hb1, Ho1. subst r1.
  rewrite (bind_returned _ _ _ _ _ E1).
  pose proof (saveMessage_returns (q_save_inbound o) (conv_id conv) messageId
                phoneNumber "text" (Some messageText) None None "inbound" w1 Hin)
    as [saved Hsaved].
  pose proof (saveMessage_frame (q_save_inbound o) (conv_id conv) messageId
                phoneNumber "text" (Some messageText) None None "inbound" w1)
    as (_ & Hb2 & Ho2 & _).
  destruct (saveMessage _ _ _ _ _ _ _ _ _ w1) as [w2 r2] eqn:E2.
  simpl in Hsaved, Hb2, Ho2. subst r2.
  rewrite (bind_returned _ _ _ _ _ E2).
  assert (no_live_session (q_now (q_get_session o)) phoneNumber (bot_sessions w2))
    as Hnone2 by (by rewrite Hb2, Hb1).
  rewrite (bind_returned _ _ _ _ _ (getSession_none _ _ _ Hg Hnone2)).
  exists conv, w2. split; [congruence|]. split; [congruence|done].
Qed.

Lemma respond_fresh_outbox (o : oracle) (phoneNumber messageText : string)
    (conv : conversation) (now : Z) (w : world) :
  reply_delivered o = true ->
  outbox (respond o phoneNumber messageText conv (freshSession phoneNumber now) w).1
  = outbox w ++
    [InteractiveRequest phoneNumber welcome_header welcome_body
       [("btn_0", "Generate Image"); ("btn_1", "Generate Video");
        ("btn_2", "Get Information")]].
Proof.
  intros Hreply. unfold respond.
  rewrite (bind_returned _ _ _ _ _
             (handleStep_welcome (generation o) (freshSession phoneNumber now)
                messageText conv w eq_refl)).
  rewrite Hreply. cbn [kind dispatch].
  rewrite (bind_returned _ _ _ _ _ eq_refl).
  match goal with
  | |- context [bind (saveMessage ?q ?c ?i ?p ?t ?ct ?u ?mt ?d) ?k ?w0] =>
      pose proof (saveMessage_frame q c i p t ct u mt d w0) as (_ & _ & Hout & _);
      unfold bind at 1;
      destruct (saveMessage q c i p t ct u mt d w0) as [w1 [saved|e]]
  end; simpl in Hout.
  - match goal with
    | |- context [saveSession ?q ?p ?d ?st ?e w1] =>
        destruct (saveSession_raises q p d st e w1) as [detail ->]
    end.
    cbn [fst]. by rewrite Hout.
  - cbn [fst]. by rewrite Hout.
Qed.

Lemma sendMessage_outbox (delivered : bool) (phoneNumber : string)
    (message : option string) (w : world) :
  exists rest, outbox (sendMessage delivered phoneNumber message w).1 = outbox w ++ rest.
Proof.
  destruct delivered.
  - by exists [TextRequest phoneNumber message].
  - exists []. simpl. by rewrite app_nil_r.
Qed.



(** ** Outbound message ids *)

(** The synthesized ids of two sends differ exactly when their clock
    readings differ. *)
Lemma outbound_id_inj (t1 t2 : Z) : outbound_id t1 = outbound_id t2 <-> t1 = t2.
Proof.
  split; [|by intros ->].
  unfold outbound_id. intros H. injection H as H. by apply (inj pretty).
Qed.

(** C9 fails on the code. The id of an outbound message is [out_] followed
    by the clock reading in milliseconds: two sends within one millisecond
    get the same id, and the row of the second is absorbed by
    [ON CONFLICT (message_id) DO NOTHING]. Here two users are answered (two
    interactive requests leave) and one outbound row is stored. *)
Theorem outbound_ids_collide_within_a_millisecond :
  outbound_id (now_outbound_id (calm 1700000000000 AxiosError)) = "out_1700000000000"
  /\ length (post_webhook two_user_delivery).1 = 2%nat
  /\ map is_interactive (outbox two_replies) = [true; false; true; false]
  /\ map (fun m => (msg_phone_number m, msg_message_id m))
         (filter is_outbound (messages two_replies))
     = [("15550001", Some "out_1700000000000")].
Proof. vm_compute. done. Qed.

(** ** Webhook verification *)

(** The verification route of the server answers 200 with the challenge
    exactly when the mode is [subscribe] and the token is the configured one,
    and 403 in every other case. *)
Lemma get_webhook_verifies (WEBHOOK_VERIFY_TOKEN : option string) (query : verify_query) :
  (hub_mode query = Some "subscribe"
   /\ hub_verify_token query = WEBHOOK_VERIFY_TOKEN ->
   get_webhook WEBHOOK_VERIFY_TOKEN query = HttpResponse 200 (hub_challenge query))
  /\ (~ (hub_mode query = Some "subscribe"
         /\ hub_verify_token query = WEBHOOK_VERIFY_TOKEN) ->
      get_webhook WEBHOOK_VERIFY_TOKEN query = HttpResponse 403 (Some "Forbidden"))
  /\ (status (get_webhook WEBHOOK_VERIFY_TOKEN query) = 200
      <-> hub_mode query = Some "subscribe"
          /\ hub_verify_token query = WEBHOOK_VERIFY_TOKEN).
Proof.
  unfold get_webhook.
  do 2 case_bool_decide; simpl; intuition congruence.
Qed.

(** C8 fails on the simple server. Its verification route answers only
    inside [if (mode && token)]: a request whose mode or token is absent or
    empty gets no response at all, neither 200 nor 403. With both present
    it answers as the claim says. *)
Theorem simple_get_webhook_unanswered (WEBHOOK_VERIFY_TOKEN : option string)
    (query : verify_query) :
  (Js.truthy (hub_mode query) = false \/ Js.truthy (hub_verify_token query) = false ->
   Simple.get_webhook WEBHOOK_VERIFY_TOKEN query = None)
  /\ (Js.truthy (hub_mode query) = true -> Js.truthy (hub_verify_token query) = true ->
      exists r,
        Simple.get_webhook WEBHOOK_VERIFY_TOKEN query = Some r
        /\ (status r = 200 \/ status r = 403)
        /\ (status r = 200
            <-> hub_mode query = Some "subscribe"
                /\ hub_verify_token query
                   = Js.or_else WEBHOOK_VERIFY_TOKEN (Some "your_verify_token_here"))).
Proof.
  unfold Simple.get_webhook. split.
  - intros [-> | ->]; [done|]. by rewrite andb_false_r.
  - intros -> ->. simpl.
    do 2 case_bool_decide; simpl; eexists; (split; [reflexivity|]); simpl;
      intuition congruence.
Qed.

Lemma simple_get_webhook_unanswered_witness :
  Simple.get_webhook (Some "secret") (VerifyQuery None None None) = None
  /\ (exists r,
        Simple.get_webhook (Some "secret")
          (VerifyQuery (Some "subscribe") (Some "wrong") (Some "12345")) = Some r
        /\ (status r = 200 \/ status r = 403)
        /\ (status r = 200
            <-> Some "subscribe" = Some "subscribe"
                /\ Some "wrong"
                   = Js.or_else (Some "secret") (Some "your_verify_token_here"))).
Proof.
  split.
  - apply (simple_get_webhook_unanswered (Some "secret") (VerifyQuery None None None)).
    left. reflexivity.
  - apply (simple_get_webhook_unanswered (Some "secret")
             (VerifyQuery (Some "subscribe") (Some "wrong") (Some "12345"))).
    + reflexivity.
    + reflexivity.
Defined.

(** ** Webhook ingestion *)

Lemma textless_truthy (m : wa_message) :
  textless m <-> Js.truthy (text_body m) = false.
Proof.
  unfold textless, Js.truthy. destruct (text_body m) as [t|].
  - destruct (String.eqb_spec t "") as [->|Hne]; simpl.
    + split; [done|by right].
    + split; [|done]. intros [H|H]; [done|]. congruence.
  - split; [done|by left].
Qed.

Lemma message_invocations_textless (v : change_value) (m : wa_message) :
  textless m -> message_invocations v m = [].
Proof.
  intros H%textless_truthy. unfold message_invocations. by rewrite H.
Qed.

Lemma message_invocations_made_for (v : change_value) (m : wa_message)
    (i : invocation) :
  In i (message_invocations v m) -> made_for m i.
Proof.
  unfold message_invocations.
  destruct (Js.truthy (text_body m)) eqn:Ht; [|done].
  intros [<-|[]]. unfold made_for. cbn.
  split; [rewrite textless_truthy; congruence|].
  destruct (text_body m); [done|discriminate Ht].
Qed.

Lemma change_invocations_made_for (c : change) (made : list invocation)
    (i : invocation) :
  change_invocations c = inl made -> In i made ->
  exists m, In m (change_messages c) /\ made_for m i.
Proof.
  unfold change_invocations, change_messages.
  case_bool_decide; [|by intros [= <-]].
  destruct (value c) as [v|]; [|done].
  destruct (value_messages v) as [ms|]; [|by intros [= <-]].
  intros [= <-] Hi. apply in_flat_map in Hi as (m & Hm & Hi).
  exists m. split; [done|]. by apply message_invocations_made_for in Hi.
Qed.

Lemma forEach_made_for (cs : list change) (i : invocation) :
  In i (forEach change_invocations cs).1 ->
  exists m, In m (flat_map change_messages cs) /\ made_for m i.
Proof.
  induction cs as [|c cs IH]; [done|]. cbn [forEach flat_map].
  destruct (change_invocations c) as [made|e] eqn:Hc; [|done].
  destruct (forEach change_invocations cs) as [rest err]. cbn [fst] in *.
  intros [Hi|Hi]%in_app_or.
  - destruct (change_invocations_made_for c made i Hc Hi) as (m & Hm & Hfor).
    exists m. split; [apply in_or_app; by left|done].
  - destruct (IH Hi) as (m & Hm & Hfor).
    exists m. split; [apply in_or_app; by right|done].
Qed.

Lemma entries_invocations_made_for (es : list entry) (i : invocation) :
  In i (entries_invocations es).1 ->
  exists m, In m (flat_map entry_messages es) /\ made_for m i.
Proof.
  induction es as [|e es IH]; [done|]. cbn [entries_invocations flat_map].
  assert (In i (entry_invocations e).1 ->
          exists m, In m (entry_messages e) /\ made_for m i) as Hentry.
  { unfold entry_invocations, entry_messages.
    destruct (changes e) as [cs|]; [apply forEach_made_for|done]. }
  destruct (entry_invocations e) as [made [err|]]; cbn [fst] in *.
  - intros Hi. destruct (Hentry Hi) as (m & Hm & Hfor).
    exists m. split; [apply in_or_app; by left|done].
  - destruct (entries_invocations es) as [rest err]. cbn [fst] in *.
    intros [Hi|Hi]%in_app_or.
    + destruct (Hentry Hi) as (m & Hm & Hfor).
      exists m. split; [apply in_or_app; by left|done].
    + destruct (IH Hi) as (m & Hm & Hfor).
      exists m. split; [apply in_or_app; by right|done].
Qed.

(** Every call of the orchestrator that a delivery starts is made for one
    of its messages that has a text. *)
Lemma post_webhook_made_for (d : delivery) (i : invocation) :
  In i (post_webhook d).1 ->
  exists m, In m (delivery_messages d) /\ made_for m i.
Proof.
  unfold post_webhook, delivery_messages.
  case_bool_decide; [|done].
  destruct (entries d) as [es|]; [|done]. cbn [default].
  pose proof (entries_invocations_made_for es i) as Hes.
  by destruct (entries_invocations es) as [made [err|]].
Qed.

(** C10. A message whose text body is absent or empty starts no call of the
    orchestrator: the callback makes none for it, a delivery starts the same
    calls with or without it, every call a delivery starts belongs to a
    message with a text, and a delivery of such messages only starts none
    and leaves conversations, messages, sessions and outbox as they are. *)
Theorem textless_message_is_skipped (v : change_value) (m : wa_message)
    (before after : list wa_message) (d : delivery) (os : list oracle) (w : world) :
  textless m ->
  Forall textless (delivery_messages d) ->
  message_invocations v m = []
  /\ flat_map (message_invocations v) (before ++ m :: after)
     = flat_map (message_invocations v) (before ++ after)
  /\ (forall d' i, In i (post_webhook d').1 ->
      exists m', In m' (delivery_messages d') /\ made_for m' i)
  /\ (post_webhook d).1 = []
  /\ run_invocations os (post_webhook d).1 w = w.
Proof.
  intros Hm Hall.
  split; [by apply message_invocations_textless|].
  split.
  { rewrite !flat_map_app. cbn [flat_map].
    by rewrite (message_invocations_textless v m Hm). }
  split; [apply post_webhook_made_for|].
  assert ((post_webhook d).1 = []) as Hnone.
  { destruct (post_webhook d).1 as [|i made] eqn:Hmade; [done|].
    assert (In i (post_webhook d).1) as Hi by (rewrite Hmade; by left).
    destruct (post_webhook_made_for d i Hi) as (m' & Hin & Hnot & _).
    rewrite Forall_forall in Hall. destruct Hnot.
    apply Hall. by apply list_elem_of_In. }
  split; [done|]. rewrite Hnone. by destruct os.
Qed.

Lemma textless_message_is_skipped_witness :
  message_invocations (ChangeValue None (Some "Alice"))
    (WaMessage "15550001" (Some "wamid.M1") None) = []
  /\ flat_map (message_invocations (ChangeValue None (Some "Alice")))
       ([WaMessage "15550002" (Some "wamid.B1") (Some "hello")]
        ++ WaMessage "15550001" (Some "wamid.M1") None :: [])
     = flat_map (message_invocations (ChangeValue None (Some "Alice")))
         ([WaMessage "15550002" (Some "wamid.B1") (Some "hello")] ++ [])
  /\ (forall d' i, In i (post_webhook d').1 ->
      exists m', In m' (delivery_messages d') /\ made_for m' i)
  /\ (post_webhook media_only_delivery).1 = []
  /\ run_invocations [calm 1000 AxiosError] (post_webhook media_only_delivery).1
       stale_world = stale_world.
Proof.
  apply (textless_message_is_skipped (ChangeValue None (Some "Alice"))
           (WaMessage "15550001" (Some "wamid.M1") None)
           [WaMessage "15550002" (Some "wamid.B1") (Some "hello")] []
           media_only_delivery [calm 1000 AxiosError] stale_world).
  - left. reflexivity.
  - repeat constructor.
Defined.

(** * Further properties of the code *)

(** ** Conversations *)

Lemma latest_conversation_none (phoneNumber : string) (rows : list conversation) :
  latest_conversation phoneNumber rows = None
  <-> forall c, c ∈ rows -> conv_phone_number c <> phoneNumber.
Proof.
  unfold latest_conversation. induction rows as [|r rows IH]; simpl.
  - split; [|done]. intros _ c Hc. by apply elem_of_nil in Hc.
  - destruct (String.eqb_spec (conv_phone_number r) phoneNumber) as [Hp|Hp].
    + split.
      * by destruct (foldr _ None rows) as [b|]; [destruct (_ <? _)|].
      * intros H. destruct (H r (list_elem_of_here _ _) Hp).
    + rewrite IH. split.
      * intros H c [->|Hc]%elem_of_cons; auto.
      * intros H c Hc. apply H. by apply list_elem_of_further.
Qed.

Lemma latest_conversation_some (phoneNumber : string) (rows : list conversation)
    (c : conversation) :
  latest_conversation phoneNumber rows = Some c ->
  c ∈ rows /\ conv_phone_number c = phoneNumber
  /\ (forall c', c' ∈ rows -> conv_phone_number c' = phoneNumber ->
      conv_created_at c' <= conv_created_at c).
Proof.
  unfold latest_conversation. revert c.
  induction rows as [|r rows IH]; intros c; simpl; [done|].
  destruct (String.eqb_spec (conv_phone_number r) phoneNumber) as [Hp|Hp].
  - destruct (foldr _ None rows) as [b|] eqn:Hb.
    + destruct (IH b eq_refl) as (Hin & Hbp & Hmax).
      destruct (Z.ltb_spec (conv_created_at b) (conv_created_at r)) as [Hlt|Hge];
        intros [= <-].
      * split; [apply list_elem_of_here|]. split; [done|].
        intros c' [->|Hc']%elem_of_cons Hp'; [lia|].
        specialize (Hmax c' Hc' Hp'). lia.
      * split; [by apply list_elem_of_further|]. split; [done|].
        intros c' [->|Hc']%elem_of_cons Hp'; [lia|]. by apply Hmax.
    + intros [= <-].
      split; [apply list_elem_of_here|]. split; [done|].
      intros c' [->|Hc']%elem_of_cons Hp'; [lia|].
      fold (latest_conversation phoneNumber rows) in Hb.
      rewrite latest_conversation_none in Hb. by destruct (Hb c' Hc').
  - intros Hc. destruct (IH c Hc) as (Hin & Hcp & Hmax).
    split; [by apply list_elem_of_further|]. split; [done|].
    intros c' [->|Hc']%elem_of_cons Hp'; [done|]. by apply Hmax.
Qed.

Lemma latest_conversation_created (phoneNumber : string)
    (rows : list conversation) (c : conversation) :
  latest_conversation phoneNumber rows = None ->
  conv_phone_number c = phoneNumber ->
  latest_conversation phoneNumber (rows ++ [c]) = Some c.
Proof.
  intros Hnone Hc. rewrite latest_conversation_none in Hnone.
  unfold latest_conversation. rewrite foldr_app. simpl.
  rewrite Hc, String.eqb_refl.
  induction rows as [|r rows IH]; simpl; [done|].
  destruct (String.eqb_spec (conv_phone_number r) phoneNumber) as [Hp|Hp].
  - destruct (Hnone r (list_elem_of_here _ _) Hp).
  - apply IH. intros c' Hc'. apply Hnone. by apply list_elem_of_further.
Qed.

(** X1. With the store answering, [getOrCreateConversation] returns a
    conversation of the user that is stored afterwards and that no other
    conversation of the user is more recent than; it adds a row only when
    the user had none, and then exactly one. *)
Theorem getOrCreateConversation_resolves (q_select q_insert : query_env)
    (phoneNumber : string) (userName : option string) (w : world) :
  q_fail q_select = false -> q_fail q_insert = false ->
  exists c w',
    getOrCreateConversation q_select q_insert phoneNumber userName w
    = (w', Returned c)
    /\ conv_phone_number c = phoneNumber
    /\ c ∈ conversations w'
    /\ (forall c', c' ∈ conversations w' -> conv_phone_number c' = phoneNumber ->
        conv_created_at c' <= conv_created_at c)
    /\ (w' = w
        \/ ((forall c', c' ∈ conversations w -> conv_phone_number c' <> phoneNumber)
            /\ conversations w' = conversations w ++ [c]
            /\ conv_user_name c = userName)).
Proof.
  intros Hs Hi. unfold getOrCreateConversation, bind, query. rewrite Hs. simpl.
  destruct (latest_conversation phoneNumber (conversations w)) as [c|] eqn:Hl.
  - apply latest_conversation_some in Hl as (Hin & Hp & Hmax).
    exists c, w. auto 10.
  - rewrite Hi. simpl. rewrite latest_conversation_none in Hl.
    eexists _, _. split; [reflexivity|]. simpl.
    split; [done|]. split; [apply elem_of_app; right; apply list_elem_of_here|].
    split.
    + intros c' [Hc'|Hc']%elem_of_app Hp'; [by destruct (Hl c' Hc')|].
      apply list_elem_of_singleton in Hc' as ->. simpl. lia.
    + right. auto.
Qed.

Lemma getOrCreateConversation_resolves_witness :
  exists c w',
    getOrCreateConversation (calm_query 300) (calm_query 300) "15550003"
      (Some "Carol") history_world
    = (w', Returned c)
    /\ conv_phone_number c = "15550003"
    /\ c ∈ conversations w'
    /\ (forall c', c' ∈ conversations w' -> conv_phone_number c' = "15550003" ->
        conv_created_at c' <= conv_created_at c)
    /\ (w' = history_world
        \/ ((forall c', c' ∈ conversations history_world ->
             conv_phone_number c' <> "15550003")
            /\ conversations w' = conversations history_world ++ [c]
            /\ conv_user_name c = Some "Carol")).
Proof.
  apply (getOrCreateConversation_resolves (calm_query 300) (calm_query 300)
           "15550003" (Some "Carol") history_world).
  - reflexivity.
  - reflexivity.
Defined.

(** X2. Asking again for the conversation of the same user is a lookup: the
    second call returns the conversation of the first and changes nothing,
    whatever name it is given, so a user never gets a second conversation. *)
Theorem getOrCreateConversation_idempotent (q1 q1' q2 q2' : query_env)
    (phoneNumber : string) (name1 name2 : option string) (w : world) :
  q_fail q1 = false -> q_fail q1' = false -> q_fail q2 = false ->
  let first := getOrCreateConversation q1 q1' phoneNumber name1 w in
  getOrCreateConversation q2 q2' phoneNumber name2 first.1 = first.
Proof.
  intros H1 H1' H2. unfold getOrCreateConversation, bind, query.
  rewrite H1, H2. simpl.
  destruct (latest_conversation phoneNumber (conversations w)) as [c|] eqn:Hl.
  - simpl. by rewrite Hl.
  - rewrite H1'. simpl.
    erewrite latest_conversation_created; [reflexivity|exact Hl|reflexivity].
Qed.

Lemma getOrCreateConversation_idempotent_witness :
  getOrCreateConversation (calm_query 400) (calm_query 400) "15550003" None
    (getOrCreateConversation (calm_query 300) (calm_query 300) "15550003"
       (Some "Carol") history_world).1
  = getOrCreateConversation (calm_query 300) (calm_query 300) "15550003"
      (Some "Carol") history_world.
Proof.
  apply (getOrCreateConversation_idempotent (calm_query 300) (calm_query 300)
           (calm_query 400) (calm_query 400) "15550003" (Some "Carol") None
           history_world).
  - reflexivity.
  - reflexivity.
  - reflexivity.
Defined.

(** ** Messages *)

Lemma existsb_no_message_id (rows : list message) :
  existsb (has_message_id None) rows = false.
Proof. by induction rows. Qed.

(** X3. A message saved without a platform message id is never taken for a
    duplicate: every such call inserts its row, so two calls leave two rows. *)
Theorem saveMessage_without_id_accumulates (q1 q2 : query_env) (c1 c2 : Z)
    (p1 p2 t1 t2 : string) (ct1 ct2 u1 u2 mt1 mt2 : option string)
    (d1 d2 : string) (w : world) :
  q_fail q1 = false -> q_fail q2 = false ->
  let first := saveMessage q1 c1 None p1 t1 ct1 u1 mt1 d1 w in
  let second := saveMessage q2 c2 None p2 t2 ct2 u2 mt2 d2 first.1 in
  first.2 = Returned (Some (new_row q1 c1 None p1 t1 ct1 u1 mt1 d1))
  /\ second.2 = Returned (Some (new_row q2 c2 None p2 t2 ct2 u2 mt2 d2))
  /\ messages second.1
     = messages w ++ [new_row q1 c1 None p1 t1 ct1 u1 mt1 d1;
                      new_row q2 c2 None p2 t2 ct2 u2 mt2 d2].
Proof.
  intros H1 H2 first second. subst first second.
  rewrite (saveMessage_insert q1 c1 None p1 t1 ct1 u1 mt1 d1 w H1
             (existsb_no_message_id _)).
  cbn [fst snd].
  rewrite (saveMessage_insert q2 c2 None p2 t2 ct2 u2 mt2 d2 _ H2
             (existsb_no_message_id _)).
  cbn [fst snd messages set_messages]. by rewrite <- app_assoc.
Qed.

Lemma saveMessage_without_id_accumulates_witness :
  (saveMessage (calm_query 10) 1 None "15550001" "text" (Some "hi") None None
     "inbound" empty_world).2
  = Returned (Some (new_row (calm_query 10) 1 None "15550001" "text" (Some "hi")
                            None None "inbound"))
  /\ (saveMessage (calm_query 20) 1 None "15550001" "text" (Some "hi") None None
        "inbound"
        (saveMessage (calm_query 10) 1 None "15550001" "text" (Some "hi") None
           None "inbound" empty_world).1).2
     = Returned (Some (new_row (calm_query 20) 1 None "15550001" "text" (Some "hi")
                               None None "inbound"))
  /\ messages
       (saveMessage (calm_query 20) 1 None "15550001" "text" (Some "hi") None None
          "inbound"
          (saveMessage (calm_query 10) 1 None "15550001" "text" (Some "hi") None
             None "inbound" empty_world).1).1
     = messages empty_world
       ++ [new_row (calm_query 10) 1 None "15550001" "text" (Some "hi") None None
                   "inbound";
           new_row (calm_query 20) 1 None "15550001" "text" (Some "hi") None None
                   "inbound"].
Proof.
  apply (saveMessage_without_id_accumulates (calm_query 10) (calm_query 20) 1 1
           "15550001" "15550001" "text" "text" (Some "hi") (Some "hi") None None
           None None "inbound" "inbound" empty_world).
  - reflexivity.
  - reflexivity.
Defined.

(** ** History *)

#[local] Instance newer_first_transitive : Transitive newer_first.
Proof. intros a b c. unfold newer_first. lia. Qed.

#[local] Instance newer_first_total : Total newer_first.
Proof. intros a b. unfold newer_first. lia. Qed.


Lemma getConversationHistory_ok (q : query_env) (phoneNumber : string)
    (limit : Z) (w : world) :
  q_fail q = false -> 0 <= limit ->
  getConversationHistory q phoneNumber limit w
  = (w, Returned (reverse (take (Z.to_nat limit)
                    (merge_sort newer_first
                       (joined_messages phoneNumber (conversations w)
                          (messages w)))))).
Proof.
  intros Hq Hl. unfold getConversationHistory, bind.
  rewrite (query_ok _ _ _ Hq).
  destruct (Z.ltb_spec limit 0); [lia|done].
Qed.



Example getConversationHistory_run :
  (getConversationHistory (calm_query 500) "15550001" 2 history_world).2
  = Returned
      [Message 1 (Some "out_101") "15550001" "interactive" (Some "menu") None
               None "outbound" 101 "sent" "{}";
       Message 1 (Some "wamid.A2") "15550001" "text" (Some "image") None None
               "inbound" 200 "sent" "{}"].
Proof. vm_compute. reflexivity. Qed.

(** X5. [getConversationHistory] never writes: the world is the same after
    every call. It raises, instead of returning rows, when the store fails
    or when the limit is negative, and a limit of zero gives no rows. *)
Theorem getConversationHistory_read_only (q : query_env) (phoneNumber : string)
    (limit : Z) (w : world) :
  (getConversationHistory q phoneNumber limit w).1 = w
  /\ (q_fail q = true \/ limit < 0 ->
      raises (getConversationHistory q phoneNumber limit w))
  /\ (q_fail q = false ->
      getConversationHistory q phoneNumber 0 w = (w, Returned [])).
Proof.
  split; [|split].
  - unfold getConversationHistory, bind, query.
    destruct (q_fail q); [done|]. simpl. by destruct (limit <? 0).
  - unfold getConversationHistory, bind, query.
    intros [-> | Hneg]; [by eexists|].
    destruct (q_fail q); [by eexists|]. simpl.
    destruct (Z.ltb_spec limit 0); [by eexists|lia].
  - intros Hq. by rewrite getConversationHistory_ok.
Qed.

Lemma getConversationHistory_read_only_witness :
  (getConversationHistory (calm_query 500) "15550001" (-1) history_world).1
  = history_world
  /\ raises (getConversationHistory (calm_query 500) "15550001" (-1) history_world)
  /\ getConversationHistory (calm_query 500) "15550001" 0 history_world
     = (history_world, Returned []).
Proof.
  destruct (getConversationHistory_read_only (calm_query 500) "15550001" (-1)
              history_world) as (Hsame & Hraise & Hzero).
  split; [exact Hsame|]. split.
  - apply Hraise. right. lia.
  - apply Hzero. reflexivity.
Defined.

(** ** Dialog engine, continued *)

Lemma step_cases (step : option string) :
  step = Some "welcome" \/ step = Some "menu_selection" \/ input_step step
  \/ unrecognized step.
Proof.
  unfold input_step.
  destruct (decide (step = Some "welcome")); [by left|].
  destruct (decide (step = Some "menu_selection")); [by right; left|].
  destruct (decide (step = Some "image_input")); [by right; right; left; left|].
  destruct (decide (step = Some "video_input"));
    [by right; right; left; right; left|].
  destruct (decide (step = Some "info_input"));
    [by right; right; left; right; right|].
  right; right; right. intros name -> Hin. unfold recognized_steps in Hin.
  repeat (apply elem_of_cons in Hin as [->|Hin]; [done|]).
  by apply elem_of_nil in Hin.
Qed.

Section InputSteps.

Variables (ax : axios_outcome) (s : session) (messageText : string)
          (conv : conversation) (w : world).

Lemma handleStep_image_input :
  current_step s = Some "image_input" ->
  handleStep ax s messageText conv w
  = bind (callCustomAPI ax "image"
            {[ "prompt" := messageText; "user" := conv_phone_number conv ]})
         (fun imageResult =>
            bind (property "imageUrl" imageUrl imageResult)
                 (fun url => ret (StepResponse
                                    (media url "image" (image_caption messageText))
                                    "welcome" ∅))) w.
Proof. intros H. unfold handleStep. by rewrite H. Qed.

Lemma handleStep_video_input :
  current_step s = Some "video_input" ->
  handleStep ax s messageText conv w
  = bind (callCustomAPI ax "video"
            {[ "prompt" := messageText; "user" := conv_phone_number conv ]})
         (fun videoResult =>
            bind (property "videoUrl" videoUrl videoResult)
                 (fun url => ret (StepResponse
                                    (media url "video" (video_caption messageText))
                                    "welcome" ∅))) w.
Proof. intros H. unfold handleStep. by rewrite H. Qed.

Lemma handleStep_info_input :
  current_step s = Some "info_input" ->
  handleStep ax s messageText conv w
  = bind (callCustomAPI ax "info"
            {[ "query" := messageText; "user" := conv_phone_number conv ]})
         (fun infoResult =>
            bind (property "response" response infoResult)
                 (fun content => ret (StepResponse (text content) "welcome" ∅))) w.
Proof. intros H. unfold handleStep. by rewrite H. Qed.

End InputSteps.

(** X6. The dialog engine performs no persistence and sends nothing:
    [handleStep] leaves conversations, messages, sessions and outbox as they
    are. It makes exactly one request to a generation service in the three
    input steps, carrying the text and the user of the conversation, and
    none in the other steps. *)
Theorem handleStep_touches_only_generation (ax : axios_outcome) (s : session)
    (messageText : string) (conv : conversation) (w : world) :
  let w' := (handleStep ax s messageText conv w).1 in
  conversations w' = conversations w /\ messages w' = messages w
  /\ bot_sessions w' = bot_sessions w /\ outbox w' = outbox w
  /\ (current_step s = Some "image_input" ->
      api_calls w' = api_calls w ++
        [("image", {[ "prompt" := messageText; "user" := conv_phone_number conv ]})])
  /\ (current_step s = Some "video_input" ->
      api_calls w' = api_calls w ++
        [("video", {[ "prompt" := messageText; "user" := conv_phone_number conv ]})])
  /\ (current_step s = Some "info_input" ->
      api_calls w' = api_calls w ++
        [("info", {[ "query" := messageText; "user" := conv_phone_number conv ]})])
  /\ (~ input_step (current_step s) -> w' = w).
Proof.
  unfold input_step.
  destruct (step_cases (current_step s)) as [H|[H|[[H|[H|H]]|H]]].
  - rewrite handleStep_welcome by done. cbn [fst]. rewrite H.
    repeat split; try done; intros [=].
  - rewrite handleStep_menu_selection by done. cbn [fst]. rewrite H.
    repeat split; try done; intros [=].
  - rewrite handleStep_image_input by done. rewrite H.
    destruct ax as [|[d|]]; cbn; repeat split; try done; try intros [=].
    all: intros Hn; destruct Hn; auto.
  - rewrite handleStep_video_input by done. rewrite H.
    destruct ax as [|[d|]]; cbn; repeat split; try done; try intros [=].
    all: intros Hn; destruct Hn; auto.
  - rewrite handleStep_info_input by done. rewrite H.
    destruct ax as [|[d|]]; cbn; repeat split; try done; try intros [=].
    all: intros Hn; destruct Hn; auto.
  - rewrite handleStep_default by done. cbn [fst].
    repeat split; try done; intros Hs; exfalso; apply (H _ Hs);
      unfold recognized_steps;
      repeat first [apply list_elem_of_here | apply list_elem_of_further].
Qed.

Lemma handleStep_touches_only_generation_witness :
  api_calls (handleStep AxiosError image_session "a red bicycle" alice empty_world).1
  = api_calls empty_world ++
    [("image", {[ "prompt" := "a red bicycle"; "user" := conv_phone_number alice ]})]
  /\ (handleStep AxiosError menu_session "a red bicycle" alice empty_world).1
     = empty_world.
Proof.
  split.
  - apply (handleStep_touches_only_generation AxiosError image_session
             "a red bicycle" alice empty_world).
    reflexivity.
  - apply (handleStep_touches_only_generation AxiosError menu_session
             "a red bicycle" alice empty_world).
    intros [H|[H|H]]; discriminate H.
Defined.

Lemma menu_selection_nextStep (data : payload) (messageText : string) :
  nextStep (menu_selection data messageText) ∈ recognized_steps.
Proof.
  unfold menu_selection, recognized_steps.
  repeat (destruct (_ || _); simpl;
          [repeat first [apply list_elem_of_here | apply list_elem_of_further]|]).
  repeat first [apply list_elem_of_here | apply list_elem_of_further].
Qed.

(** X7. [handleStep] raises in one situation only: in an input step, when
    the generation service answered with [null]. Every response it returns
    names one of the five steps as the next step, and that name is what the
    orchestrator hands to [saveSession], never the step the session came
    with. *)
Theorem handleStep_raises_only_on_null_result (ax : axios_outcome) (s : session)
    (messageText : string) (conv : conversation) (w : world) :
  (raises (handleStep ax s messageText conv w)
   <-> ax = AxiosData None /\ input_step (current_step s))
  /\ (forall w' r,
        handleStep ax s messageText conv w = (w', Returned r) ->
        nextStep r ∈ recognized_steps
        /\ Js.or_else (Some (nextStep r)) (current_step s) = Some (nextStep r)).
Proof.
  assert (forall (name : string) (step : option string),
          name ∈ recognized_steps ->
          name ∈ recognized_steps /\ Js.or_else (Some name) step = Some name)
    as Hstored.
  { intros name step Hin. split; [done|]. unfold recognized_steps in Hin.
    repeat (apply elem_of_cons in Hin as [->|Hin]; [done|]).
    by apply elem_of_nil in Hin. }
  assert ("welcome" ∈ recognized_steps) as Hwelcome by apply list_elem_of_here.
  unfold input_step.
  destruct (step_cases (current_step s)) as [H|[H|[[H|[H|H]]|H]]].
  - rewrite handleStep_welcome by done. rewrite H. split.
    + split; [intros [e He]; discriminate He|]. intros [_ [?|[?|?]]]; discriminate.
    + intros w' r [= <- <-]. apply Hstored. cbn.
      apply list_elem_of_further, list_elem_of_here.
  - rewrite handleStep_menu_selection by done. rewrite H. split.
    + split; [intros [e He]; discriminate He|]. intros [_ [?|[?|?]]]; discriminate.
    + intros w' r [= <- <-]. apply Hstored, menu_selection_nextStep.
  - rewrite handleStep_image_input by done.
    destruct ax as [|[d|]]; cbn; (split; [split|]).
    all: try (intros [e He]; discriminate He).
    all: try (intros [Hax _]; discriminate Hax).
    all: try (intros w' r [= <- <-]; by apply Hstored).
    all: try (intros w' r Hr; discriminate Hr).
    all: try by eexists.
    all: auto.
  - rewrite handleStep_video_input by done.
    destruct ax as [|[d|]]; cbn; (split; [split|]).
    all: try (intros [e He]; discriminate He).
    all: try (intros [Hax _]; discriminate Hax).
    all: try (intros w' r [= <- <-]; by apply Hstored).
    all: try (intros w' r Hr; discriminate Hr).
    all: try by eexists.
    all: auto.
  - rewrite handleStep_info_input by done.
    destruct ax as [|[d|]]; cbn; (split; [split|]).
    all: try (intros [e He]; discriminate He).
    all: try (intros [Hax _]; discriminate Hax).
    all: try (intros w' r [= <- <-]; by apply Hstored).
    all: try (intros w' r Hr; discriminate Hr).
    all: try by eexists.
    all: auto.
  - rewrite handleStep_default by done. split.
    + split; [intros [e He]; discriminate He|].
      intros [_ Hin]. exfalso.
      destruct Hin as [Hs|[Hs|Hs]]; apply (H _ Hs); unfold recognized_steps;
        repeat first [apply list_elem_of_here | apply list_elem_of_further].
    + intros w' r [= <- <-]. by apply Hstored.
Qed.

Lemma handleStep_raises_only_on_null_result_witness :
  raises (handleStep (AxiosData None) image_session "a red bicycle" alice empty_world)
  /\ ("menu_selection" ∈ recognized_steps
      /\ Js.or_else (Some "menu_selection") (current_step welcome_session)
         = Some "menu_selection").
Proof.
  split.
  - apply (handleStep_raises_only_on_null_result (AxiosData None) image_session
             "a red bicycle" alice empty_world).
    split; [reflexivity|]. left. reflexivity.
  - apply (proj2 (handleStep_raises_only_on_null_result AxiosError welcome_session
                    "hi" alice empty_world) empty_world
             (StepResponse (interactive welcome_header welcome_body menu_buttons)
                           "menu_selection" ∅)).
    reflexivity.
Defined.

(** X8. When the generation service answers with an object, the response is
    built from that object as it is: the media link is its [imageUrl] or
    [videoUrl], the text its [response]. The fallback is not used when the
    field is missing: the response then has no link or no content, and is
    not well formed. The next step is [welcome] and the payload is empty in
    every case. *)
Theorem handleStep_uses_service_result (d : api_result) (s : session)
    (messageText : string) (conv : conversation) (w : world) :
  (current_step s = Some "image_input" ->
   exists w',
     handleStep (AxiosData (Some d)) s messageText conv w
     = (w', Returned (StepResponse
                        (media (imageUrl d) "image" (image_caption messageText))
                        "welcome" ∅))
     /\ (imageUrl d = None ->
         ~ well_formed (media (imageUrl d) "image" (image_caption messageText))))
  /\ (current_step s = Some "video_input" ->
      exists w',
        handleStep (AxiosData (Some d)) s messageText conv w
        = (w', Returned (StepResponse
                           (media (videoUrl d) "video" (video_caption messageText))
                           "welcome" ∅))
        /\ (videoUrl d = None ->
            ~ well_formed (media (videoUrl d) "video" (video_caption messageText))))
  /\ (current_step s = Some "info_input" ->
      exists w',
        handleStep (AxiosData (Some d)) s messageText conv w
        = (w', Returned (StepResponse (text (response d)) "welcome" ∅))
        /\ (response d = None -> ~ well_formed (text (response d)))).
Proof.
  split; [|split]; intros Hstep.
  - rewrite handleStep_image_input by done. eexists. split; [reflexivity|].
    intros ->. simpl. intros [H _]. discriminate H.
  - rewrite handleStep_video_input by done. eexists. split; [reflexivity|].
    intros ->. simpl. intros [H _]. discriminate H.
  - rewrite handleStep_info_input by done. eexists. split; [reflexivity|].
    intros ->. simpl. intros H. discriminate H.
Qed.

Lemma handleStep_uses_service_result_witness :
  exists w',
    handleStep (AxiosData (Some (ApiResult None (Some "https://v.example/1.mp4") None)))
      image_session "a red bicycle" alice empty_world
    = (w', Returned (StepResponse (media None "image" (image_caption "a red bicycle"))
                                  "welcome" ∅))
    /\ (@None string = None ->
        ~ well_formed (media None "image" (image_caption "a red bicycle"))).
Proof.
  apply (handleStep_uses_service_result
           (ApiResult None (Some "https://v.example/1.mp4") None)
           image_session "a red bicycle" alice empty_world).
  reflexivity.
Defined.

(** *** Case of the letters in the menu *)









Example menu_selection_ignores_case_run :
  menu_selection ∅ "GENERATE VIDEO" = menu_selection ∅ "generate video"
  /\ nextStep (menu_selection ∅ "GENERATE VIDEO") = "video_input".
Proof. split; reflexivity. Qed.

(** X10. A service path closes in three messages. From [welcome] any text
    leads to the menu; there a text either selects nothing, and the dialog
    stays in the menu with the same payload, or selects a service, and then
    any further text brings the dialog back to [welcome] with an empty
    payload, whether the generation service answers or fails (an answer of
    [null] apart). *)
Theorem service_path_returns_to_welcome (ax : axios_outcome) (s : session)
    (t1 t2 t3 : string) (e1 e2 : Z) (conv : conversation) (w : world) :
  current_step s = Some "welcome" ->
  ax <> AxiosData None ->
  exists r1 r2,
    handleStep ax s t1 conv w = (w, Returned r1)
    /\ nextStep r1 = "menu_selection"
    /\ handleStep ax (next_session s r1 e1) t2 conv w = (w, Returned r2)
    /\ ((nextStep r2 = "menu_selection" /\ sessionData r2 = sessionData r1)
        \/ (input_step (Some (nextStep r2))
            /\ exists w3 r3,
                 handleStep ax (next_session (next_session s r1 e1) r2 e2) t3 conv w
                 = (w3, Returned r3)
                 /\ nextStep r3 = "welcome" /\ sessionData r3 = ∅)).
Proof.
  intros Hstep Hax.
  eexists _, _. split; [by apply handleStep_welcome|].
  split; [reflexivity|].
  split; [by apply handleStep_menu_selection|].
  cbn [next_session session_data current_step nextStep sessionData default].
  unfold menu_selection, input_step.
  destruct (_ || Js.includes "image" _); [|destruct (_ || Js.includes "video" _);
    [|destruct (_ || Js.includes "information" _)]];
    cbn [nextStep sessionData]; [right|right|right|by left].
  - split; [by left|].
    rewrite handleStep_image_input by done.
    destruct ax as [|[d|]]; [..|done]; by eexists _, _.
  - split; [by right; left|].
    rewrite handleStep_video_input by done.
    destruct ax as [|[d|]]; [..|done]; by eexists _, _.
  - split; [by right; right|].
    rewrite handleStep_info_input by done.
    destruct ax as [|[d|]]; [..|done]; by eexists _, _.
Qed.

Lemma service_path_returns_to_welcome_witness :
  exists r1 r2,
    handleStep AxiosError welcome_session "hi" alice empty_world
    = (empty_world, Returned r1)
    /\ nextStep r1 = "menu_selection"
    /\ handleStep AxiosError (next_session welcome_session r1 1000) "an image"
         alice empty_world
       = (empty_world, Returned r2)
    /\ ((nextStep r2 = "menu_selection" /\ sessionData r2 = sessionData r1)
        \/ (input_step (Some (nextStep r2))
            /\ exists w3 r3,
                 handleStep AxiosError
                   (next_session (next_session welcome_session r1 1000) r2 2000)
                   "a red bicycle" alice empty_world
                 = (w3, Returned r3)
                 /\ nextStep r3 = "welcome" /\ sessionData r3 = ∅)).
Proof.
  apply (service_path_returns_to_welcome AxiosError welcome_session "hi"
           "an image" "a red bicycle" 1000 2000 alice empty_world).
  - reflexivity.
  - intros H. discriminate H.
Defined.

(** ** Outbound channel *)

Lemma imap_pair_snd {A B} (g : nat -> B) (l : list A) :
  (imap (fun i x => (g i, x)) l).*2 = l.
Proof.
  revert g. induction l as [|x l IH]; intros g; [done|].
  rewrite imap_cons. cbn. f_equal. apply (IH (g ∘ S)).
Qed.

(** X11. The buttons of an interactive message go out as the caller gave
    them: same number, same order, duplicates kept, the label as title. The
    reply id of the button at position [i] is [btn_i], so the ids of one
    message are pairwise distinct. A refused request raises and records
    nothing. *)
Theorem sendInteractiveMessage_buttons (phoneNumber header body : string)
    (buttons : list string) (w : world) :
  (exists replies,
     sendInteractiveMessage true phoneNumber header body buttons w
     = (set_outbox (fun sent => sent ++
          [InteractiveRequest phoneNumber header body replies]) w, Returned tt)
     /\ replies.*2 = buttons
     /\ (forall i, replies.*1 !! i = (fun _ => "btn_" +:+ pretty i) <$> buttons !! i)
     /\ NoDup replies.*1)
  /\ sendInteractiveMessage false phoneNumber header body buttons w
     = (w, Raised (DeliveryError "sendInteractiveMessage")).
Proof.
  split; [|reflexivity].
  eexists. split; [reflexivity|].
  assert (forall i,
            (imap (fun index btn => ("btn_" +:+ pretty index, btn)) buttons).*1 !! i
            = (fun _ : string => "btn_" +:+ pretty i) <$> buttons !! i) as Hids.
  { intros i. rewrite list_lookup_fmap, list_lookup_imap.
    by destruct (buttons !! i). }
  split.
  { apply (imap_pair_snd (fun index => "btn_" +:+ pretty index)). }
  split; [exact Hids|].
  apply NoDup_alt. intros i j x Hi Hj. rewrite Hids in Hi, Hj.
  destruct (buttons !! i); [|done]. destruct (buttons !! j); [|done].
  simpl in Hi, Hj. injection Hi as <-. injection Hj as Hj.
  symmetry. by apply (inj pretty).
Qed.

Example sendInteractiveMessage_run :
  outbox (sendInteractiveMessage true "15550001" "Pick" "One of" ["Yes"; "No"; "Yes"]
            empty_world).1
  = [InteractiveRequest "15550001" "Pick" "One of"
       [("btn_0", "Yes"); ("btn_1", "No"); ("btn_2", "Yes")]].
Proof. reflexivity. Qed.

(** ** Effects of one run of the orchestrator *)

Lemma adds_refl (w : world) : adds 0 0 0 w w.
Proof.
  unfold adds. split; [done|].
  repeat split; exists []; by rewrite app_nil_r.
Qed.

Lemma adds_weaken (a b c a' b' c' : nat) (w w' : world) :
  (a <= a')%nat -> (b <= b')%nat -> (c <= c')%nat ->
  adds a b c w w' -> adds a' b' c' w w'.
Proof.
  intros Ha Hb Hc (Hs & (cs & Hcs & Hlc) & (ms & Hms & Hlm) & (rs & Hrs & Hlr)).
  split; [done|].
  split; [exists cs; split; [done|lia]|].
  split; [exists ms; split; [done|lia]|exists rs; split; [done|lia]].
Qed.

Lemma adds_trans (a b c a' b' c' : nat) (w w1 w2 : world) :
  adds a b c w w1 -> adds a' b' c' w1 w2 -> adds (a + a') (b + b') (c + c') w w2.
Proof.
  intros (Hs & (cs & Hcs & Hlc) & (ms & Hms & Hlm) & (rs & Hrs & Hlr))
         (Hs' & (cs' & Hcs' & Hlc') & (ms' & Hms' & Hlm') & (rs' & Hrs' & Hlr')).
  split; [congruence|].
  split; [exists (cs ++ cs'); rewrite Hcs', Hcs, <- app_assoc, length_app;
          split; [done|lia]|].
  split; [exists (ms ++ ms'); rewrite Hms', Hms, <- app_assoc, length_app;
          split; [done|lia]|].
  exists (rs ++ rs'). rewrite Hrs', Hrs, <- app_assoc, length_app. split; [done|lia].
Qed.

Lemma establishes_bind {A B} (m : M A) (k : A -> M B) (a b c a' b' c' : nat) :
  establishes m (adds a b c) ->
  (forall x, establishes (k x) (adds a' b' c')) ->
  establishes (bind m k) (adds (a + a') (b + b') (c + c')).
Proof.
  intros Hm Hk w. specialize (Hm w). unfold bind.
  destruct (m w) as [w1 [x|e]]; cbn [fst] in *.
  - exact (adds_trans _ _ _ _ _ _ _ _ _ Hm (Hk x w1)).
  - apply (adds_weaken a b c); [lia..|done].
Qed.

Lemma establishes_try_catch {A} (m : M A) (h : exn -> M A) (a b c a' b' c' : nat) :
  establishes m (adds a b c) ->
  (forall e, establishes (h e) (adds a' b' c')) ->
  establishes (try_catch m h) (adds (a + a') (b + b') (c + c')).
Proof.
  intros Hm Hh w. specialize (Hm w). unfold try_catch.
  destruct (m w) as [w1 [x|e]]; cbn [fst] in *.
  - apply (adds_weaken a b c); [lia..|done].
  - exact (adds_trans _ _ _ _ _ _ _ _ _ Hm (Hh e w1)).
Qed.

Lemma establishes_weaken {A} (m : M A) (a b c a' b' c' : nat) :
  (a <= a')%nat -> (b <= b')%nat -> (c <= c')%nat ->
  establishes m (adds a b c) -> establishes m (adds a' b' c').
Proof. intros Ha Hb Hc Hm w. by apply (adds_weaken a b c). Qed.

Lemma adds_one_request (w : world) (r : outbound_request) :
  adds 0 0 1 w (set_outbox (fun sent => sent ++ [r]) w).
Proof.
  split; [done|].
  split; [exists []; by rewrite app_nil_r|].
  split; [exists []; by rewrite app_nil_r|by exists [r]].
Qed.

Lemma post_to_platform_adds (delivered : bool) (operation : string)
    (r : outbound_request) :
  establishes (post_to_platform delivered operation r) (adds 0 0 1).
Proof.
  intros w. destruct delivered; cbn.
  - apply adds_one_request.
  - apply (adds_weaken 0 0 0); [lia..|apply adds_refl].
Qed.

Lemma dispatch_adds (delivered : bool) (phoneNumber : string) (k : response_kind) :
  establishes (dispatch delivered phoneNumber k) (adds 0 0 1).
Proof. destruct k; apply post_to_platform_adds. Qed.

Lemma getOrCreateConversation_adds (q_select q_insert : query_env)
    (phoneNumber : string) (userName : option string) :
  establishes (getOrCreateConversation q_select q_insert phoneNumber userName)
              (adds 1 0 0).
Proof.
  intros w. unfold getOrCreateConversation, bind, query.
  destruct (q_fail q_select); cbn;
    [apply (adds_weaken 0 0 0); [lia..|apply adds_refl]|].
  destruct (latest_conversation phoneNumber (conversations w)); cbn;
    [apply (adds_weaken 0 0 0); [lia..|apply adds_refl]|].
  destruct (q_fail q_insert); cbn;
    [apply (adds_weaken 0 0 0); [lia..|apply adds_refl]|].
  split; [done|]. split; [by eexists [_]|].
  split; exists []; by rewrite app_nil_r.
Qed.

Lemma saveMessage_adds (q : query_env) (conversationId : Z)
    (messageId : option string) (phoneNumber messageType : string)
    (content mediaUrl mediaType : option string) (direction : string) :
  establishes (saveMessage q conversationId messageId phoneNumber messageType
                 content mediaUrl mediaType direction) (adds 0 1 0).
Proof.
  intros w. destruct (q_fail q) eqn:Hq.
  - rewrite saveMessage_failed by done.
    apply (adds_weaken 0 0 0); [lia..|apply adds_refl].
  - destruct (existsb (has_message_id messageId) (messages w)) eqn:Hex.
    + rewrite saveMessage_conflict by done.
      apply (adds_weaken 0 0 0); [lia..|apply adds_refl].
    + rewrite saveMessage_insert by done. cbn.
      split; [done|]. split; [exists []; by rewrite app_nil_r|].
      split; [by eexists [_]|exists []; by rewrite app_nil_r].
Qed.

Lemma getSession_adds (q : query_env) (phoneNumber : string) :
  establishes (getSession q phoneNumber) (adds 0 0 0).
Proof.
  intros w. unfold getSession, bind, query.
  destruct (q_fail q); cbn; apply adds_refl.
Qed.

Lemma saveSession_adds (q : query_env) (phoneNumber : string) (data : payload)
    (step : option string) (expiresAt : Z) :
  establishes (saveSession q phoneNumber data step expiresAt) (adds 0 0 0).
Proof.
  intros w. destruct (saveSession_raises q phoneNumber data step expiresAt w)
    as [detail ->].
  apply adds_refl.
Qed.

Lemma handleStep_frame (ax : axios_outcome) (s : session) (messageText : string)
    (conv : conversation) (w : world) :
  let w' := (handleStep ax s messageText conv w).1 in
  conversations w' = conversations w /\ messages w' = messages w
  /\ bot_sessions w' = bot_sessions w /\ outbox w' = outbox w.
Proof.
  destruct (step_cases (current_step s)) as [H|[H|[[H|[H|H]]|H]]].
  - by rewrite handleStep_welcome.
  - by rewrite handleStep_menu_selection.
  - rewrite handleStep_image_input by done. by destruct ax as [|[d|]].
  - rewrite handleStep_video_input by done. by destruct ax as [|[d|]].
  - rewrite handleStep_info_input by done. by destruct ax as [|[d|]].
  - by rewrite handleStep_default.
Qed.

Lemma handleStep_adds (ax : axios_outcome) (s : session) (messageText : string)
    (conv : conversation) :
  establishes (handleStep ax s messageText conv) (adds 0 0 0).
Proof.
  intros w. destruct (handleStep_frame ax s messageText conv w)
    as (Hc & Hm & Hs & Ho).
  split; [done|].
  split; [exists []; by rewrite app_nil_r|].
  split; exists []; by rewrite app_nil_r.
Qed.

Lemma respond_adds (o : oracle) (phoneNumber messageText : string)
    (conv : conversation) (s : session) :
  establishes (respond o phoneNumber messageText conv s) (adds 0 1 1).
Proof.
  unfold respond.
  apply (establishes_bind _ _ 0 0 0 0 1 1); [apply handleStep_adds|]. intros r.
  apply (establishes_bind _ _ 0 0 1 0 1 0); [apply dispatch_adds|]. intros _.
  apply (establishes_bind _ _ 0 1 0 0 0 0); [apply saveMessage_adds|]. intros _.
  apply saveSession_adds.
Qed.

Lemma processMessage_try_adds (o : oracle) (phoneNumber messageText : string)
    (messageId userName : option string) :
  establishes (processMessage_try o phoneNumber messageText messageId userName)
              (adds 1 2 1).
Proof.
  unfold processMessage_try.
  apply (establishes_bind _ _ 1 0 0 0 2 1); [apply getOrCreateConversation_adds|].
  intros conv.
  apply (establishes_bind _ _ 0 1 0 0 1 1); [apply saveMessage_adds|]. intros _.
  apply (establishes_bind _ _ 0 0 0 0 1 1); [apply getSession_adds|]. intros found.
  apply respond_adds.
Qed.

Lemma processMessage_adds (o : oracle) (phoneNumber messageText : string)
    (messageId userName : option string) :
  establishes (processMessage o phoneNumber messageText messageId userName)
              (adds 1 2 2).
Proof.
  unfold processMessage.
  apply (establishes_try_catch _ _ 1 2 1 0 0 1); [apply processMessage_try_adds|].
  intros e. apply post_to_platform_adds.
Qed.

(** X12. One inbound message costs at most one new conversation, two new
    message rows and two outbound requests. Whatever fails on the way, the
    run rewrites nothing that was stored before it (the earlier rows and
    requests are a prefix of the later ones) and leaves the table of
    sessions exactly as it was. *)
Theorem processMessage_effects_bounded (o : oracle) (phoneNumber messageText : string)
    (messageId userName : option string) (w : world) :
  let w' := (processMessage o phoneNumber messageText messageId userName w).1 in
  bot_sessions w' = bot_sessions w
  /\ (exists cs, conversations w' = conversations w ++ cs /\ (length cs <= 1)%nat)
  /\ (exists ms, messages w' = messages w ++ ms /\ (length ms <= 2)%nat)
  /\ (exists rs, outbox w' = outbox w ++ rs /\ (length rs <= 2)%nat).
Proof. apply processMessage_adds. Qed.

(** ** Invariants of whole runs *)

Lemma adds_no_message (a c : nat) (w w' : world) :
  adds a 0 c w w' -> messages w' = messages w.
Proof.
  intros (_ & _ & (ms & Hms & Hl) & _).
  destruct ms; [by rewrite app_nil_r in Hms|simpl in Hl; lia].
Qed.

Lemma establishes_keeps_unique {A} (m : M A) (a c : nat) :
  establishes m (adds a 0 c) -> establishes m keeps_unique_ids.
Proof. intros Hm w Hu. by rewrite (adds_no_message _ _ _ _ (Hm w)). Qed.

Lemma keeps_unique_bind {A B} (m : M A) (k : A -> M B) :
  establishes m keeps_unique_ids ->
  (forall x, establishes (k x) keeps_unique_ids) ->
  establishes (bind m k) keeps_unique_ids.
Proof.
  intros Hm Hk w Hu. specialize (Hm w Hu). unfold bind.
  destruct (m w) as [w1 [x|e]]; cbn [fst] in *; [by apply Hk|done].
Qed.

Lemma keeps_unique_try_catch {A} (m : M A) (h : exn -> M A) :
  establishes m keeps_unique_ids ->
  (forall e, establishes (h e) keeps_unique_ids) ->
  establishes (try_catch m h) keeps_unique_ids.
Proof.
  intros Hm Hh w Hu. specialize (Hm w Hu). unfold try_catch.
  destruct (m w) as [w1 [x|e]]; cbn [fst] in *; [done|by apply Hh].
Qed.

Lemma saveMessage_keeps_unique (q : query_env) (conversationId : Z)
    (messageId : option string) (phoneNumber messageType : string)
    (content mediaUrl mediaType : option string) (direction : string) :
  establishes (saveMessage q conversationId messageId phoneNumber messageType
                 content mediaUrl mediaType direction) keeps_unique_ids.
Proof. intros w Hu. by apply saveMessage_unique. Qed.

Lemma processMessage_keeps_unique (o : oracle) (phoneNumber messageText : string)
    (messageId userName : option string) :
  establishes (processMessage o phoneNumber messageText messageId userName)
              keeps_unique_ids.
Proof.
  unfold processMessage, processMessage_try, respond.
  apply keeps_unique_try_catch;
    [|intros e; apply (establishes_keeps_unique _ 0 1), post_to_platform_adds].
  apply keeps_unique_bind;
    [apply (establishes_keeps_unique _ 1 0), getOrCreateConversation_adds|].
  intros conv.
  apply keeps_unique_bind; [apply saveMessage_keeps_unique|]. intros _.
  apply keeps_unique_bind;
    [apply (establishes_keeps_unique _ 0 0), getSession_adds|]. intros found.
  apply keeps_unique_bind;
    [apply (establishes_keeps_unique _ 0 0), handleStep_adds|]. intros r.
  apply keeps_unique_bind;
    [apply (establishes_keeps_unique _ 0 1), dispatch_adds|]. intros _.
  apply keeps_unique_bind; [apply saveMessage_keeps_unique|]. intros _.
  apply (establishes_keeps_unique _ 0 0), saveSession_adds.
Qed.

Lemma run_invocations_adds (os : list oracle) (calls : list invocation) (w : world) :
  adds (length calls) (2 * length calls) (2 * length calls) w
       (run_invocations os calls w).
Proof.
  revert os w. induction calls as [|i calls IH]; intros os w.
  - apply adds_refl.
  - destruct os as [|o os]; cbn [run_invocations].
    + apply (adds_weaken 0 0 0); [lia..|apply adds_refl].
    + apply (adds_weaken (1 + length calls) (2 + 2 * length calls)
                         (2 + 2 * length calls)); [cbn [length]; lia..|].
      apply (adds_trans _ _ _ _ _ _ _ (run_invocation o i w)); [|apply IH].
      apply processMessage_adds.
Qed.

(** X13. However many messages are processed one after the other, and
    whatever fails on the way, the platform message ids of the stored
    messages stay unique, the table of sessions stays as it was, and for [n]
    processed messages at most [2 n] message rows are added and at most
    [2 n] requests leave, after those that were there. *)
Theorem run_invocations_invariants (os : list oracle) (calls : list invocation)
    (w : world) :
  unique_message_ids (messages w) ->
  let w' := run_invocations os calls w in
  unique_message_ids (messages w')
  /\ bot_sessions w' = bot_sessions w
  /\ (exists ms, messages w' = messages w ++ ms
                 /\ (length ms <= 2 * length calls)%nat)
  /\ (exists rs, outbox w' = outbox w ++ rs
                 /\ (length rs <= 2 * length calls)%nat).
Proof.
  intros Hu. split.
  - revert os w Hu. induction calls as [|i calls IH]; intros os w Hu; [done|].
    destruct os as [|o os]; cbn [run_invocations]; [done|].
    apply IH. by apply processMessage_keeps_unique.
  - destruct (run_invocations_adds os calls w) as (Hs & _ & Hm & Ho). auto.
Qed.

Lemma run_invocations_invariants_witness :
  unique_message_ids (messages two_replies)
  /\ bot_sessions two_replies = bot_sessions empty_world
  /\ (exists ms, messages two_replies = messages empty_world ++ ms
                 /\ (length ms <= 2 * length (post_webhook two_user_delivery).1)%nat)
  /\ (exists rs, outbox two_replies = outbox empty_world ++ rs
                 /\ (length rs <= 2 * length (post_webhook two_user_delivery).1)%nat).
Proof.
  apply (run_invocations_invariants
           [calm 1700000000000 AxiosError; calm 1700000000000 AxiosError]
           (post_webhook two_user_delivery).1 empty_world).
  exact unique_message_ids_nil.
Defined.

(** ** A webhook event delivered twice *)

Lemma message_count_app (messageId : string) (rows more : list message) :
  (message_count messageId rows <= message_count messageId (rows ++ more))%nat.
Proof. unfold message_count. rewrite filter_app, length_app. lia. Qed.

Lemma saveMessage_stored (q : query_env) (conversationId : Z) (messageId : string)
    (phoneNumber messageType : string) (content mediaUrl mediaType : option string)
    (direction : string) (w : world) :
  q_fail q = false ->
  (1 <= message_count messageId
          (messages (saveMessage q conversationId (Some messageId) phoneNumber
                       messageType content mediaUrl mediaType direction w).1))%nat.
Proof.
  intros Hq.
  destruct (existsb (has_message_id (Some messageId)) (messages w)) eqn:Hex.
  - rewrite saveMessage_conflict by done.
    apply existsb_message_count in Hex. simpl. lia.
  - rewrite saveMessage_insert by done. cbn [fst messages set_messages].
    unfold message_count. rewrite filter_bool_app_one, length_app.
    cbn [has_message_id new_row msg_message_id]. rewrite String.eqb_refl.
    simpl. lia.
Qed.

Lemma try_catch_apology_messages (m : M unit) (delivered : bool)
    (phoneNumber : string) (message : option string) (w : world) :
  messages (try_catch m (fun error => sendMessage delivered phoneNumber message) w).1
  = messages (m w).1.
Proof.
  unfold try_catch. destruct (m w) as [w1 [[]|e]]; [done|]. by destruct delivered.
Qed.

Lemma processMessage_stores_inbound (o : oracle) (phoneNumber messageText : string)
    (messageId : string) (userName : option string) (w : world) :
  q_fail (q_select_conversation o) = false ->
  q_fail (q_insert_conversation o) = false ->
  q_fail (q_save_inbound o) = false ->
  (1 <= message_count messageId
          (messages (processMessage o phoneNumber messageText (Some messageId)
                       userName w).1))%nat.
Proof.
  intros Hs Hi Hin. unfold processMessage.
  rewrite try_catch_apology_messages. unfold processMessage_try.
  pose proof (getOrCreateConversation_returns _ _ phoneNumber userName w Hs Hi)
    as [conv Hconv].
  destruct (getOrCreateConversation _ _ phoneNumber userName w) as [w1 r1] eqn:E1.
  simpl in Hconv. subst r1. rewrite (bind_returned _ _ _ _ _ E1).
  pose proof (saveMessage_returns (q_save_inbound o) (conv_id conv)
                (Some messageId) phoneNumber "text" (Some messageText) None None
                "inbound" w1 Hin) as [saved Hsaved].
  pose proof (saveMessage_stored (q_save_inbound o) (conv_id conv) messageId
                phoneNumber "text" (Some messageText) None None "inbound" w1 Hin)
    as Hcount.
  destruct (saveMessage _ _ _ _ _ _ _ _ _ w1) as [w2 r2] eqn:E2.
  simpl in Hsaved, Hcount. subst r2. rewrite (bind_returned _ _ _ _ _ E2).
  match goal with
  | |- context [bind (getSession ?q ?p) ?k w2] =>
      pose proof (establishes_bind (getSession q p) k 0 0 0 0 1 1
                    (getSession_adds q p) (fun found => respond_adds _ _ _ _ _) w2)
        as (_ & _ & (ms & -> & _) & _)
  end.
  pose proof (message_count_app messageId (messages w2) ms). lia.
Qed.

Lemma processMessage_fresh_reply (o : oracle) (phoneNumber messageText : string)
    (messageId userName : option string) (w : world) :
  q_fail (q_select_conversation o) = false ->
  q_fail (q_insert_conversation o) = false ->
  q_fail (q_save_inbound o) = false ->
  q_fail (q_get_session o) = false ->
  reply_delivered o = true ->
  no_live_session (q_now (q_get_session o)) phoneNumber (bot_sessions w) ->
  exists rest,
    outbox (processMessage o phoneNumber messageText messageId userName w).1
    = outbox w ++ menu_request phoneNumber :: rest.
Proof.
  intros Hs Hi Hin Hg Hreply Hnone.
  destruct (processMessage_try_fresh o phoneNumber messageText messageId userName w
              Hs Hi Hin Hg Hnone) as (conv & w' & Hb & Ho & Htry).
  unfold processMessage, try_catch. rewrite Htry.
  pose proof (respond_fresh_outbox o phoneNumber messageText conv
                (now_default_session o) w' Hreply) as Hout.
  destruct (respond o phoneNumber messageText conv _ w') as [w'' [[]|e]];
    cbn [fst] in Hout |- *.
  - exists []. by rewrite Hout, Ho.
  - destruct (sendMessage_outbox (apology_delivered o) phoneNumber (Some apology) w'')
      as [rest ->].
    exists rest. by rewrite Hout, Ho, <- app_assoc.
Qed.

(** X14. A webhook event delivered twice is stored once and answered twice.
    With the store answering up to the reading of the session, the platform
    accepting the replies and no live session of the user, the two runs
    leave exactly one message with the platform message id of the event,
    and the menu is sent to the user both times. *)
Theorem redelivery_is_stored_once_and_answered_twice (o1 o2 : oracle)
    (phoneNumber messageText messageId : string) (userName : option string)
    (w : world) :
  unique_message_ids (messages w) ->
  q_fail (q_select_conversation o1) = false ->
  q_fail (q_insert_conversation o1) = false ->
  q_fail (q_save_inbound o1) = false ->
  q_fail (q_get_session o1) = false ->
  reply_delivered o1 = true ->
  q_fail (q_select_conversation o2) = false ->
  q_fail (q_insert_conversation o2) = false ->
  q_fail (q_save_inbound o2) = false ->
  q_fail (q_get_session o2) = false ->
  reply_delivered o2 = true ->
  no_live_session (q_now (q_get_session o1)) phoneNumber (bot_sessions w) ->
  no_live_session (q_now (q_get_session o2)) phoneNumber (bot_sessions w) ->
  let w1 := (processMessage o1 phoneNumber messageText (Some messageId) userName w).1 in
  let w2 := (processMessage o2 phoneNumber messageText (Some messageId) userName w1).1 in
  message_count messageId (messages w2) = 1%nat
  /\ exists rest1 rest2,
       outbox w2
       = outbox w ++ menu_request phoneNumber :: rest1
                  ++ menu_request phoneNumber :: rest2.
Proof.
  intros Hu Hs1 Hi1 Hin1 Hg1 Hr1 Hs2 Hi2 Hin2 Hg2 Hr2 Hn1 Hn2 w1 w2.
  assert (unique_message_ids (messages w1)) as Hu1
    by (by apply processMessage_keeps_unique).
  assert (unique_message_ids (messages w2)) as Hu2
    by (by apply processMessage_keeps_unique).
  split.
  - pose proof (processMessage_stores_inbound o2 phoneNumber messageText messageId
                  userName w1 Hs2 Hi2 Hin2) as Hone.
    fold w2 in Hone. specialize (Hu2 messageId). lia.
  - destruct (processMessage_fresh_reply o1 phoneNumber messageText (Some messageId)
                userName w Hs1 Hi1 Hin1 Hg1 Hr1 Hn1) as [rest1 Hout1].
    fold w1 in Hout1.
    assert (bot_sessions w1 = bot_sessions w) as Hsame
      by apply processMessage_adds.
    rewrite <- Hsame in Hn2.
    destruct (processMessage_fresh_reply o2 phoneNumber messageText (Some messageId)
                userName w1 Hs2 Hi2 Hin2 Hg2 Hr2 Hn2) as [rest2 Hout2].
    fold w2 in Hout2.
    exists rest1, rest2. rewrite Hout2, Hout1, <- app_assoc. done.
Qed.

Lemma redelivery_is_stored_once_and_answered_twice_witness :
  message_count "wamid.A1"
    (messages (processMessage (calm 2000 AxiosError) "15550001" "hi"
                 (Some "wamid.A1") (Some "Alice")
                 (processMessage (calm 1000 AxiosError) "15550001" "hi"
                    (Some "wamid.A1") (Some "Alice") empty_world).1).1)
  = 1%nat
  /\ exists rest1 rest2,
       outbox (processMessage (calm 2000 AxiosError) "15550001" "hi"
                 (Some "wamid.A1") (Some "Alice")
                 (processMessage (calm 1000 AxiosError) "15550001" "hi"
                    (Some "wamid.A1") (Some "Alice") empty_world).1).1
       = outbox empty_world ++ menu_request "15550001" :: rest1
                            ++ menu_request "15550001" :: rest2.
Proof.
  apply (redelivery_is_stored_once_and_answered_twice (calm 1000 AxiosError)
           (calm 2000 AxiosError) "15550001" "hi" "wamid.A1" (Some "Alice")
           empty_world); try reflexivity.
  - exact unique_message_ids_nil.
  - apply no_live_session_forallb. reflexivity.
  - apply no_live_session_forallb. reflexivity.
Defined.

(** ** Failures inside a run *)

(** X15. When the store fails on the first query of a run, nothing is
    recorded and the only effect is the apology: the run ends with the
    apology in the outbox if the platform accepts it, and with the
    [DeliveryError] of the apology and an untouched world if not. *)
Theorem processMessage_store_down (o : oracle) (phoneNumber messageText : string)
    (messageId userName : option string) (w : world) :
  q_fail (q_select_conversation o) = true ->
  (apology_delivered o = true ->
   processMessage o phoneNumber messageText messageId userName w
   = (set_outbox (fun sent => sent ++ [TextRequest phoneNumber (Some apology)]) w,
      Returned tt))
  /\ (apology_delivered o = false ->
      processMessage o phoneNumber messageText messageId userName w
      = (w, Raised (DeliveryError "sendMessage"))).
Proof.
  intros Hdown.
  assert (processMessage_try o phoneNumber messageText messageId userName w
          = (w, Raised (StoreError "getOrCreateConversation" "query failed")))
    as Htry.
  { unfold processMessage_try. apply bind_raised.
    unfold getOrCreateConversation. apply bind_raised.
    by apply query_failed. }
  unfold processMessage, try_catch. rewrite Htry.
  split; intros ->; reflexivity.
Qed.

Lemma processMessage_store_down_witness :
  processMessage (store_down 1000) "15550001" "hi" (Some "wamid.A1") (Some "Alice")
    history_world
  = (set_outbox (fun sent => sent ++ [TextRequest "15550001" (Some apology)])
       history_world,
     Returned tt).
Proof.
  apply (processMessage_store_down (store_down 1000) "15550001" "hi"
           (Some "wamid.A1") (Some "Alice") history_world).
  - reflexivity.
  - reflexivity.
Defined.

Lemma no_reply_recorded_refl (w : world) : no_reply_recorded w w.
Proof. by split. Qed.

Lemma no_reply_recorded_trans (w w1 w2 : world) :
  no_reply_recorded w w1 -> no_reply_recorded w1 w2 -> no_reply_recorded w w2.
Proof. intros [Ho Hm] [Ho' Hm']. split; congruence. Qed.

Lemma no_reply_recorded_bind {A B} (m : M A) (k : A -> M B) :
  establishes m no_reply_recorded ->
  (forall x, establishes (k x) no_reply_recorded) ->
  establishes (bind m k) no_reply_recorded.
Proof.
  intros Hm Hk w. specialize (Hm w). unfold bind.
  destruct (m w) as [w1 [x|e]]; cbn [fst] in *; [|done].
  exact (no_reply_recorded_trans _ _ _ Hm (Hk x w1)).
Qed.

Lemma saveMessage_inbound_no_reply (q : query_env) (conversationId : Z)
    (messageId : option string) (phoneNumber messageType : string)
    (content mediaUrl mediaType : option string) :
  establishes (saveMessage q conversationId messageId phoneNumber messageType
                 content mediaUrl mediaType "inbound") no_reply_recorded.
Proof.
  intros w. destruct (q_fail q) eqn:Hq.
  - rewrite saveMessage_failed by done. apply no_reply_recorded_refl.
  - destruct (existsb (has_message_id messageId) (messages w)) eqn:Hex.
    + rewrite saveMessage_conflict by done. apply no_reply_recorded_refl.
    + rewrite saveMessage_insert by done. split; [done|].
      cbn [fst messages set_messages]. rewrite filter_bool_app_one.
      by rewrite app_nil_r.
Qed.

Lemma processMessage_try_reply_refused (o : oracle)
    (phoneNumber messageText : string) (messageId userName : option string) :
  reply_delivered o = false ->
  establishes (processMessage_try o phoneNumber messageText messageId userName)
              no_reply_recorded.
Proof.
  intros Hreply. unfold processMessage_try, respond.
  apply no_reply_recorded_bind.
  { intros w. destruct (getOrCreateConversation_frame (q_select_conversation o)
                          (q_insert_conversation o) phoneNumber userName w)
      as (Hm & _ & Ho & _).
    split; [done|]. by rewrite Hm. }
  intros conv. apply no_reply_recorded_bind; [apply saveMessage_inbound_no_reply|].
  intros _. apply no_reply_recorded_bind.
  { intros w. unfold getSession, bind, query.
    destruct (q_fail (q_get_session o)); apply no_reply_recorded_refl. }
  intros found. apply no_reply_recorded_bind.
  { intros w. destruct (handleStep_frame (generation o)
                          (match found with
                           | Some s => s
                           | None => freshSession phoneNumber (now_default_session o)
                           end) messageText conv w) as (_ & Hm & _ & Ho).
    split; [done|]. by rewrite Hm. }
  intros r w. rewrite Hreply.
  destruct (dispatch_refused phoneNumber (kind r) w) as [op Hop].
  rewrite (bind_raised _ _ _ _ _ Hop). apply no_reply_recorded_refl.
Qed.

(** X16. A reply that the platform refuses is not recorded: when the send
    of the response fails, the run stores no outbound message, and the only
    request that can leave is the apology. *)
Theorem refused_reply_is_not_recorded (o : oracle) (phoneNumber messageText : string)
    (messageId userName : option string) (w : world) :
  reply_delivered o = false ->
  let w' := (processMessage o phoneNumber messageText messageId userName w).1 in
  filter is_outbound (messages w') = filter is_outbound (messages w)
  /\ outbox w'
     = outbox w ++ (if apology_delivered o
                    then [TextRequest phoneNumber (Some apology)] else []).
Proof.
  intros Hreply.
  pose proof (processMessage_try_reply_refused o phoneNumber messageText messageId
                userName Hreply w) as [Hout Hmsg].
  pose proof (processMessage_try_raises_when_reply_refused o phoneNumber
                messageText messageId userName w Hreply) as [e He].
  unfold processMessage, try_catch.
  destruct (processMessage_try o phoneNumber messageText messageId userName w)
    as [w1 r]. cbn [fst snd] in *. subst r.
  destruct (apology_delivered o); cbn.
  - by rewrite Hmsg, Hout.
  - by rewrite Hmsg, Hout, app_nil_r.
Qed.

Lemma refused_reply_is_not_recorded_witness :
  filter is_outbound
    (messages (processMessage (reply_refused 1000) "15550001" "hi" (Some "wamid.A3")
                 (Some "Alice") history_world).1)
  = filter is_outbound (messages history_world)
  /\ outbox (processMessage (reply_refused 1000) "15550001" "hi" (Some "wamid.A3")
               (Some "Alice") history_world).1
     = outbox history_world
       ++ (if apology_delivered (reply_refused 1000)
           then [TextRequest "15550001" (Some apology)] else []).
Proof.
  apply (refused_reply_is_not_recorded (reply_refused 1000) "15550001" "hi"
           (Some "wamid.A3") (Some "Alice") history_world).
  reflexivity.
Defined.

(** ** Webhook deliveries *)

Lemma change_invocations_error (c : change) :
  (exists e, change_invocations c = inr e) <-> broken_change c.
Proof.
  unfold change_invocations, broken_change.
  case_bool_decide as Hf.
  - destruct (value c) as [v|].
    + split; [|by intros [_ ?]]. destruct (value_messages v); by intros [e ?].
    + split; [done|]. intros _. by eexists.
  - split; [by intros [e ?]|]. by intros [? _].
Qed.

Lemma forEach_error (cs : list change) :
  (forEach change_invocations cs).2 <> None <-> Exists broken_change cs.
Proof.
  induction cs as [|c cs IH]; cbn [forEach].
  - split; [done|]. by intros ?%Exists_nil.
  - rewrite Exists_cons, <- IH, <- change_invocations_error.
    destruct (change_invocations c) as [made|e].
    + destruct (forEach change_invocations cs) as [rest err]. cbn [snd].
      split; [by right|]. intros [[e ?]|?]; done.
    + cbn [snd]. split; [intros _; left; by eexists|done].
Qed.

Lemma forEach_app (cs1 cs2 : list change) :
  (forEach change_invocations cs1).2 = None ->
  forEach change_invocations (cs1 ++ cs2)
  = ((forEach change_invocations cs1).1 ++ (forEach change_invocations cs2).1,
     (forEach change_invocations cs2).2).
Proof.
  induction cs1 as [|c cs1 IH]; cbn [forEach app].
  - intros _. by destruct (forEach change_invocations cs2).
  - destruct (change_invocations c) as [made|e]; [|done].
    destruct (forEach change_invocations cs1) as [rest err]. cbn [fst snd] in *.
    intros ->. rewrite IH by done.
    destruct (forEach change_invocations cs2) as [rest2 err2]. cbn [fst snd].
    by rewrite app_assoc.
Qed.

Lemma entries_invocations_error (es : list entry) :
  (entries_invocations es).2 <> None
  <-> Exists broken_change (flat_map (fun e => default [] (changes e)) es).
Proof.
  induction es as [|e es IH]; cbn [entries_invocations flat_map].
  - split; [done|]. by intros ?%Exists_nil.
  - rewrite Exists_app, <- IH.
    assert ((entry_invocations e).2 <> None
            <-> Exists broken_change (default [] (changes e))) as He.
    { unfold entry_invocations. destruct (changes e) as [cs|]; cbn [default].
      - apply forEach_error.
      - split; [done|]. by intros ?%Exists_nil. }
    rewrite <- He.
    destruct (entry_invocations e) as [made [err|]]; cbn [snd].
    + split; [by left|done].
    + destruct (entries_invocations es) as [rest err]. cbn [snd].
      split; [by right|]. by intros [?|?].
Qed.

(** X17. The delivery route answers 200 or 500 and nothing else. It starts
    no call and answers 200 for a body that is not of a WhatsApp business
    account; for one that is, it answers 500 exactly when some change of the
    delivery announces messages and carries no value. *)
Theorem post_webhook_status (d : delivery) :
  (object d <> Some "whatsapp_business_account" ->
   post_webhook d = ([], HttpResponse 200 (Some "OK")))
  /\ (object d = Some "whatsapp_business_account" ->
      (status (post_webhook d).2 = 500
       <-> Exists broken_change (delivery_changes d))
      /\ (status (post_webhook d).2 = 200 \/ status (post_webhook d).2 = 500)).
Proof.
  unfold post_webhook, delivery_changes. split.
  - intros Hobj. by case_bool_decide.
  - intros Hobj. case_bool_decide; [|done].
    destruct (entries d) as [es|]; cbn [default flat_map].
    + pose proof (entries_invocations_error es) as Herr.
      destruct (entries_invocations es) as [made [err|]]; cbn [snd status] in *.
      * split; [|by right]. split; [intros _; by apply Herr|done].
      * split; [|by left]. split; [done|]. intros H'. by apply Herr in H'.
    + cbn. split; [|by left]. split; [done|]. by intros ?%Exists_nil.
Qed.

Lemma post_webhook_status_witness :
  post_webhook (Delivery (Some "page") None) = ([], HttpResponse 200 (Some "OK"))
  /\ ((status (post_webhook half_broken_delivery).2 = 500
       <-> Exists broken_change (delivery_changes half_broken_delivery))
      /\ (status (post_webhook half_broken_delivery).2 = 200
          \/ status (post_webhook half_broken_delivery).2 = 500)).
Proof.
  split.
  - apply (post_webhook_status (Delivery (Some "page") None)).
    intros H. discriminate H.
  - apply (post_webhook_status half_broken_delivery). reflexivity.
Defined.

(** X18. A change without a value cuts the delivery short: the calls for the
    changes before it are started, the changes after it and the entries
    after its entry are never looked at, and the platform is answered 500
    although the started calls run on. *)
Theorem post_webhook_cut_short (before after : list change) (bad : change)
    (later : list entry) :
  Forall (fun c => ~ broken_change c) before ->
  broken_change bad ->
  post_webhook (Delivery (Some "whatsapp_business_account")
                  (Some (Entry (Some (before ++ bad :: after)) :: later)))
  = ((forEach change_invocations before).1,
     HttpResponse 500 (Some "Internal Server Error")).
Proof.
  intros Hgood Hbad.
  assert ((forEach change_invocations before).2 = None) as Hnone.
  { destruct ((forEach change_invocations before).2) eqn:E; [|done].
    assert (Exists broken_change before) as Hex
      by (apply forEach_error; by rewrite E).
    apply Exists_exists in Hex as (c & Hc & Hb).
    rewrite Forall_forall in Hgood. by destruct (Hgood c Hc). }
  apply change_invocations_error in Hbad as [e Hbad].
  unfold post_webhook. case_bool_decide; [|done].
  cbn [entries entries_invocations entry_invocations changes].
  rewrite (forEach_app _ _ Hnone). cbn [forEach]. rewrite Hbad.
  cbn [fst snd]. by rewrite app_nil_r.
Qed.

Lemma post_webhook_cut_short_witness :
  post_webhook half_broken_delivery
  = ((forEach change_invocations
        [Change (Some "messages")
           (Some (ChangeValue
              (Some [WaMessage "15550001" (Some "wamid.A1") (Some "hi")])
              (Some "Alice")))]).1,
     HttpResponse 500 (Some "Internal Server Error")).
Proof.
  apply (post_webhook_cut_short
           [Change (Some "messages")
              (Some (ChangeValue
                 (Some [WaMessage "15550001" (Some "wamid.A1") (Some "hi")])
                 (Some "Alice")))]
           [Change (Some "messages")
              (Some (ChangeValue
                 (Some [WaMessage "15550002" (Some "wamid.B1") (Some "hello")])
                 (Some "Bob")))]
           (Change (Some "messages") None) []).
  - repeat constructor. intros [_ H]. discriminate H.
  - split; reflexivity.
Defined.

Lemma calls_of_messages_app (l1 l2 : list wa_message) :
  call_of_message <$> filter has_text (l1 ++ l2)
  = (call_of_message <$> filter has_text l1)
    ++ (call_of_message <$> filter has_text l2).
Proof. by rewrite filter_app, fmap_app. Qed.

Lemma message_invocations_calls (v : change_value) (ms : list wa_message) :
  call_of_invocation <$> flat_map (message_invocations v) ms
  = call_of_message <$> filter has_text ms.
Proof.
  induction ms as [|m ms IH]; [done|].
  cbn [flat_map]. rewrite fmap_app, IH, filter_bool_cons.
  unfold message_invocations, has_text.
  by destruct (Js.truthy (text_body m)).
Qed.

Lemma change_invocations_messages (c : change) (v : change_value) :
  field c = Some "messages" -> value c = Some v ->
  change_invocations c
  = inl (flat_map (message_invocations v) (change_messages c)).
Proof.
  intros Hf Hv. unfold change_invocations, change_messages.
  rewrite Hf, Hv, bool_decide_eq_true_2 by done.
  by destruct (value_messages v).
Qed.

Lemma forEach_calls (cs : list change) :
  Forall (fun c => field c = Some "messages" /\ value c <> None) cs ->
  (forEach change_invocations cs).2 = None
  /\ call_of_invocation <$> (forEach change_invocations cs).1
     = call_of_message <$> filter has_text (flat_map change_messages cs).
Proof.
  induction 1 as [|c cs [Hf Hv] _ IH]; [done|].
  cbn [forEach flat_map].
  destruct (value c) as [v|] eqn:Hvalue; [|done].
  rewrite (change_invocations_messages c v Hf Hvalue).
  destruct IH as [Herr Hcalls].
  destruct (forEach change_invocations cs) as [rest err]. cbn [fst snd] in *.
  split; [done|].
  by rewrite calls_of_messages_app, <- Hcalls, fmap_app, message_invocations_calls.
Qed.

Lemma entries_calls (es : list entry) :
  Forall (fun c => field c = Some "messages" /\ value c <> None)
         (flat_map (fun e => default [] (changes e)) es) ->
  (entries_invocations es).2 = None
  /\ call_of_invocation <$> (entries_invocations es).1
     = call_of_message <$> filter has_text (flat_map entry_messages es).
Proof.
  induction es as [|e es IH]; [done|].
  cbn [flat_map entries_invocations]. intros [He Hes]%Forall_app.
  destruct (IH Hes) as [Herr Hcalls].
  rewrite calls_of_messages_app, <- Hcalls.
  assert ((entry_invocations e).2 = None
          /\ call_of_invocation <$> (entry_invocations e).1
             = call_of_message <$> filter has_text (entry_messages e)) as [He1 He2].
  { unfold entry_invocations, entry_messages.
    destruct (changes e) as [cs|]; [by apply forEach_calls|done]. }
  rewrite <- He2.
  destruct (entry_invocations e) as [made err]. cbn [fst snd] in *. subst err.
  destruct (entries_invocations es) as [rest err]. cbn [fst snd] in *.
  by rewrite fmap_app.
Qed.

(** X19. In a delivery of a WhatsApp business account whose changes all
    announce messages and carry a value, every message with a non-empty text
    starts exactly one call of the orchestrator, with its sender, its id and
    its text, in the order of the delivery and across all entries and
    changes; the answer is 200. *)
Theorem post_webhook_calls_every_text_once (d : delivery) :
  object d = Some "whatsapp_business_account" ->
  Forall (fun c => field c = Some "messages" /\ value c <> None)
         (delivery_changes d) ->
  call_of_invocation <$> (post_webhook d).1
  = call_of_message <$> filter has_text (delivery_messages d)
  /\ (post_webhook d).2 = HttpResponse 200 (Some "OK").
Proof.
  intros Hobj Hgood. unfold post_webhook, delivery_messages, delivery_changes in *.
  rewrite bool_decide_eq_true_2 by done.
  destruct (entries d) as [es|]; cbn [default] in *; [|done].
  destruct (entries_calls es Hgood) as [Herr Hcalls].
  destruct (entries_invocations es) as [made err]. cbn [fst snd] in *.
  by subst err.
Qed.

Lemma post_webhook_calls_every_text_once_witness :
  call_of_invocation <$> (post_webhook two_user_delivery).1
  = call_of_message <$> filter has_text (delivery_messages two_user_delivery)
  /\ (post_webhook two_user_delivery).2 = HttpResponse 200 (Some "OK").
Proof.
  apply (post_webhook_calls_every_text_once two_user_delivery).
  - reflexivity.
  - repeat constructor. intros H. discriminate H.
Defined.

(** X20. The verification route of the server answers every request: 200
    with the challenge as body exactly when the mode is [subscribe] and the
    token equals the configured one, and 403 [Forbidden] otherwise. An
    absent token equals an absent configuration: when no verify token is
    configured, a [subscribe] request that carries no token is verified. *)
Theorem get_webhook_answers_every_request (WEBHOOK_VERIFY_TOKEN : option string)
    (query : verify_query) :
  (hub_mode query = Some "subscribe"
   /\ hub_verify_token query = WEBHOOK_VERIFY_TOKEN
   <-> get_webhook WEBHOOK_VERIFY_TOKEN query
       = HttpResponse 200 (hub_challenge query))
  /\ (~ (hub_mode query = Some "subscribe"
         /\ hub_verify_token query = WEBHOOK_VERIFY_TOKEN)
      <-> get_webhook WEBHOOK_VERIFY_TOKEN query
          = HttpResponse 403 (Some "Forbidden"))
  /\ (WEBHOOK_VERIFY_TOKEN = None -> hub_mode query = Some "subscribe" ->
      hub_verify_token query = None ->
      status (get_webhook WEBHOOK_VERIFY_TOKEN query) = 200).
Proof.
  unfold get_webhook.
  do 2 case_bool_decide; simpl; repeat split; try discriminate; try tauto;
    try congruence.
Qed.

Lemma get_webhook_answers_every_request_witness :
  status (get_webhook None (VerifyQuery (Some "subscribe") None (Some "12345"))) = 200.
Proof.
  apply (get_webhook_answers_every_request None
           (VerifyQuery (Some "subscribe") None (Some "12345"))); reflexivity.
Defined.

(** ** The simple server *)

(** X21. The delivery route of the simple server looks at the first change
    of the first entry only: it hands the messages of that change to
    [processMessage], whatever the field of the change, and ignores every
    other change and entry. It answers 404 to a body without [object], and
    an entry list or change list that is empty, or a first change without a
    value, makes the handler throw before any message is handed over. *)
Theorem simple_post_webhook_first_change_only (d : delivery) :
  (Js.truthy (object d) = false ->
   Simple.post_webhook d = ([], inl (HttpResponse 404 (Some "Not Found"))))
  /\ (forall f v cs es,
        Js.truthy (object d) = true ->
        entries d = Some (Entry (Some (Change f (Some v) :: cs)) :: es) ->
        Simple.post_webhook d
        = (default [] (value_messages v),
           inl (HttpResponse 200 (Some "EVENT_RECEIVED"))))
  /\ (Js.truthy (object d) = true ->
      entries d = Some []
      \/ (exists es, entries d = Some (Entry (Some []) :: es))
      \/ (exists f cs es, entries d = Some (Entry (Some (Change f None :: cs)) :: es)) ->
      exists e, Simple.post_webhook d = ([], inr (TypeError e))).
Proof.
  unfold Simple.post_webhook. split; [by intros ->|]. split.
  - intros f v cs es -> ->. cbn. by destruct (value_messages v).
  - intros -> [->|[[es ->]|(f & cs & es & ->)]]; cbn; by eexists.
Qed.

Lemma simple_post_webhook_first_change_only_witness :
  Simple.post_webhook three_change_delivery
  = ([WaMessage "15550001" (Some "wamid.A1") (Some "hi")],
     inl (HttpResponse 200 (Some "EVENT_RECEIVED")))
  /\ length (post_webhook three_change_delivery).1 = 3%nat.
Proof.
  split; [|reflexivity].
  apply (proj1 (proj2 (simple_post_webhook_first_change_only three_change_delivery))
           (Some "messages")
           (ChangeValue (Some [WaMessage "15550001" (Some "wamid.A1") (Some "hi")])
                        (Some "Alice"))
           [Change (Some "messages")
              (Some (ChangeValue
                 (Some [WaMessage "15550002" (Some "wamid.B1") (Some "hello")])
                 (Some "Bob")))]
           [Entry (Some
              [Change (Some "messages")
                 (Some (ChangeValue
                    (Some [WaMessage "15550003" (Some "wamid.C1") (Some "help")])
                    (Some "Carol")))])]).
  - reflexivity.
  - reflexivity.
Defined.



(** X23. [processMessage] of the simple server never raises and sends at
    most one message. It sends nothing for a message whose text is absent
    or empty, nothing without both credentials, and nothing that the
    platform does not accept; otherwise exactly the answer of
    [generateResponse] to the text goes to the sender. *)
Theorem simple_processMessage_sends_at_most_one
    (accessToken phoneNumberId : option string) (f : Simple.fetch_outcome)
    (m : wa_message) (w : world) :
  returns (Simple.processMessage accessToken phoneNumberId f m w)
  /\ (textless m \/ Js.truthy accessToken = false \/ Js.truthy phoneNumberId = false
      \/ f <> Simple.FetchOk ->
      (Simple.processMessage accessToken phoneNumberId f m w).1 = w)
  /\ (forall userMessage,
        text_body m = Some userMessage -> userMessage <> "" ->
        Js.truthy accessToken = true -> Js.truthy phoneNumberId = true ->
        f = Simple.FetchOk ->
        (Simple.processMessage accessToken phoneNumberId f m w).1
        = set_outbox (fun sent => sent ++
            [TextRequest (from m) (Some (Simple.generateResponse userMessage))]) w).
Proof.
  unfold Simple.processMessage, Simple.sendWhatsAppMessage. split; [|split].
  - destruct (Js.truthy (text_body m)); cbn; [|by eexists].
    destruct (Js.truthy accessToken), (Js.truthy phoneNumberId); cbn;
      try by eexists.
    destruct f; by eexists.
  - rewrite textless_truthy. intros H.
    destruct (Js.truthy (text_body m)), (Js.truthy accessToken),
      (Js.truthy phoneNumberId), f; cbn; try done;
      destruct H as [H|[H|[H|H]]]; congruence.
  - intros userMessage Hm Hne -> -> ->. rewrite Hm. cbn.
    destruct (String.eqb_spec userMessage ""); [done|]. reflexivity.
Qed.

Lemma simple_processMessage_sends_at_most_one_witness :
  (Simple.processMessage (Some "token") None Simple.FetchOk
     (WaMessage "15550001" (Some "wamid.A1") (Some "hi")) empty_world).1
  = empty_world
  /\ (Simple.processMessage (Some "token") (Some "42") Simple.FetchOk
        (WaMessage "15550001" (Some "wamid.A1") (Some "hi")) empty_world).1
     = set_outbox (fun sent => sent ++
         [TextRequest "15550001" (Some (Simple.generateResponse "hi"))]) empty_world.
Proof.
  split.
  - apply (simple_processMessage_sends_at_most_one (Some "token") None
             Simple.FetchOk (WaMessage "15550001" (Some "wamid.A1") (Some "hi"))
             empty_world).
    right. right. left. reflexivity.
  - apply (proj2 (proj2 (simple_processMessage_sends_at_most_one (Some "token")
             (Some "42") Simple.FetchOk
             (WaMessage "15550001" (Some "wamid.A1") (Some "hi")) empty_world))
             "hi"); try reflexivity.
    intros H. discriminate H.
Defined.

(** ** The mock generation services *)





Example encodeURIComponent_run :
  Mock.encodeURIComponent "a red bicycle & more!" = "a%20red%20bicycle%20%26%20more!".
Proof. reflexivity. Qed.



Lemma mock_prompt_lookup (messageText user : string) :
  ({[ "prompt" := messageText; "user" := user ]} : payload) !! "prompt"
  = Some messageText.
Proof. apply lookup_insert_eq. Qed.

Lemma mock_query_lookup (messageText user : string) :
  ({[ "query" := messageText; "user" := user ]} : payload) !! "query"
  = Some messageText.
Proof. apply lookup_insert_eq. Qed.

(** X26. With the mock server as the generation service (the endpoints the
    code falls back to), the three input steps never raise and always give a
    well-formed response: an image whose link is the placeholder address
    followed by the encoded text (or by [Generated%20Image] for an empty
    text), the sample video, or the mock sentence about the text; the next
    step is [welcome]. *)
Theorem handleStep_with_mock_services (s : session) (messageText : string)
    (conv : conversation) (w : world) :
  (current_step s = Some "image_input" ->
   exists w' r,
     handleStep
       (mock_upstream "image"
          {[ "prompt" := messageText; "user" := conv_phone_number conv ]})
       s messageText conv w = (w', Returned r)
     /\ kind r = media
          (Some (Mock.image_url_prefix
                 +:+ Mock.encodeURIComponent
                       (if String.eqb messageText "" then "Generated Image"
                        else messageText)))
          "image" (image_caption messageText)
     /\ well_formed (kind r) /\ nextStep r = "welcome")
  /\ (current_step s = Some "video_input" ->
      exists w' r,
        handleStep
          (mock_upstream "video"
             {[ "prompt" := messageText; "user" := conv_phone_number conv ]})
          s messageText conv w = (w', Returned r)
        /\ kind r = media
             (Some "https://sample-videos.com/zip/10/mp4/SampleVideo_1280x720_1mb.mp4")
             "video" (video_caption messageText)
        /\ well_formed (kind r) /\ nextStep r = "welcome")
  /\ (current_step s = Some "info_input" ->
      exists w' r,
        handleStep
          (mock_upstream "info"
             {[ "query" := messageText; "user" := conv_phone_number conv ]})
          s messageText conv w = (w', Returned r)
        /\ kind r = text
             (Some ("Here's information about: " +:+ messageText
                    +:+ ". This is a mock response for local testing."))
        /\ well_formed (kind r) /\ nextStep r = "welcome").
Proof.
  split; [|split]; intros Hstep.
  - rewrite handleStep_image_input by done.
    change (mock_upstream "image" ?d) with (AxiosData (Some (Mock.generate_image d))).
    eexists _, _. split; [reflexivity|]. cbn [kind nextStep].
    unfold Mock.generate_image. cbn [imageUrl].
    rewrite mock_prompt_lookup. unfold Js.or_else, Js.truthy.
    destruct (String.eqb messageText ""); cbn [negb default];
      (split; [reflexivity|]); (split; [|reflexivity]);
      (split; [reflexivity|by left]).
  - rewrite handleStep_video_input by done.
    change (mock_upstream "video" ?d) with (AxiosData (Some (Mock.generate_video d))).
    eexists _, _. split; [reflexivity|]. cbn [kind nextStep].
    split; [reflexivity|]. split; [|reflexivity]. split; [reflexivity|by right].
  - rewrite handleStep_info_input by done.
    change (mock_upstream "info" ?d) with (AxiosData (Some (Mock.get_info d))).
    eexists _, _. split; [reflexivity|]. cbn [kind nextStep].
    unfold Mock.get_info. cbn [response]. rewrite mock_query_lookup.
    split; [reflexivity|]. split; reflexivity.
Qed.

Lemma handleStep_with_mock_services_witness :
  exists w' r,
    handleStep
      (mock_upstream "image"
         {[ "prompt" := "a red bicycle"; "user" := conv_phone_number alice ]})
      image_session "a red bicycle" alice empty_world = (w', Returned r)
    /\ kind r = media
         (Some (Mock.image_url_prefix
                +:+ Mock.encodeURIComponent
                      (if String.eqb "a red bicycle" "" then "Generated Image"
                       else "a red bicycle")))
         "image" (image_caption "a red bicycle")
    /\ well_formed (kind r) /\ nextStep r = "welcome".
Proof.
  apply (handleStep_with_mock_services image_session "a red bicycle" alice
           empty_world).
  reflexivity.
Defined.

(** ** Reading a session *)

(** X27. [getSession] never writes, and it finds a live session whenever
    the user has one: with the store answering, if some stored row of the
    user expires strictly after the store's current time, the call returns
    a row, and the row it returns is the first such row of the table. *)
Theorem getSession_finds_live_session (q : query_env) (userId : string)
    (s : session) (e : Z) (w : world) :
  (getSession q userId w).1 = w
  /\ (q_fail q = false ->
      s ∈ bot_sessions w -> phone_number s = userId ->
      expires_at s = Some e -> q_now q < e ->
      exists found older,
        getSession q userId w = (w, Returned (Some found))
        /\ phone_number found = userId /\ live (q_now q) found = true
        /\ (exists later, bot_sessions w = older ++ found :: later)
        /\ no_live_session (q_now q) userId older).
Proof.
  split.
  { unfold getSession, bind, query. by destruct (q_fail q). }
  intros Hq Hin Hp He Hlt. rewrite getSession_ok by done.
  assert (exists s', s' ∈ bot_sessions w
                     /\ String.eqb (phone_number s') userId
                        && live (q_now q) s' = true) as Hex.
  { exists s. split; [done|]. unfold live. rewrite Hp, He, String.eqb_refl.
    simpl. by apply Z.ltb_lt. }
  clear Hin Hp He Hlt. revert Hex.
  generalize (bot_sessions w) as rows.
  induction rows as [|r rows IH]; intros (s' & Hin' & Hs').
  { by apply elem_of_nil in Hin'. }
  rewrite filter_bool_cons.
  destruct (String.eqb (phone_number r) userId && live (q_now q) r) eqn:Hr.
  - exists r, []. split; [done|].
    apply andb_true_iff in Hr as [Hrp Hrl]. apply String.eqb_eq in Hrp.
    split; [done|]. split; [done|]. split; [by exists rows|].
    intros x Hx. by apply elem_of_nil in Hx.
  - apply elem_of_cons in Hin' as [->|Hin']; [congruence|].
    destruct IH as (found & older & Hfound & Hfp & Hfl & (later & Hrows) & Hold).
    { by exists s'. }
    exists found, (r :: older). injection Hfound as Hfound.
    split; [by rewrite Hfound|]. split; [done|]. split; [done|].
    split; [exists later; by rewrite Hrows|].
    intros x [->|Hx]%elem_of_cons Hxp ex Hxe; [|by apply (Hold x)].
    unfold live in Hr. rewrite Hxp, String.eqb_refl, Hxe in Hr. simpl in Hr.
    by apply Z.ltb_ge.
Qed.

Lemma getSession_finds_live_session_witness :
  exists found older,
    getSession (calm_query 1000) "15550002" stale_world
    = (stale_world, Returned (Some found))
    /\ phone_number found = "15550002" /\ live (q_now (calm_query 1000)) found = true
    /\ (exists later, bot_sessions stale_world = older ++ found :: later)
    /\ no_live_session (q_now (calm_query 1000)) "15550002" older.
Proof.
  apply (proj2 (getSession_finds_live_session (calm_query 1000) "15550002"
                  (Session "15550002" (Some ∅) (Some "menu_selection") (Some 5000))
                  5000 stale_world)).
  - reflexivity.
  - apply list_elem_of_further, list_elem_of_here.
  - reflexivity.
  - reflexivity.
  - reflexivity.
Defined.

